(** * Book catalog: in-memory repository, query pipeline and paginator

    A shallow embedding of
      - [app/utils/common_utils.py]          ([normalize_string]),
      - [app/services/pagination_service.py] ([PaginationService.paginate]),
      - [app/repositories/book_repository.py] ([InMemoryBookRepository]),
      - the pydantic models of [app/models/book.py] they exchange.

    Modelling conventions.
      - A Python [int] is a [Z]; a Python [str] is a [string] whose
        characters are the code points U+0000..U+00FF; [Optional[T]] is
        [option T].
      - The repository's [_books] is a Python [dict]: it keeps its keys in
        insertion order, assignment to a present key keeps the key's
        position, and [values()] follows that order.  It is an association
        list here, because the order is what the query pipeline sees.
      - [list.sort(key=..., reverse=...)] is a stable sort that only uses
        [<] on the keys; with [reverse=True] CPython reverses the list,
        sorts it, and reverses the result.
      - [set(...)] in [get_stats] is a finite set of strings ([gset]).
      - The [async] methods never suspend, so each is a function from the
        repository state to a result and the next state. *)

From Stdlib Require Import ZArith String Ascii List Permutation Lia Bool.
From stdpp Require Import base list strings gmap sorting pretty.

Local Open Scope string_scope.
Local Open Scope list_scope.
Local Open Scope Z_scope.

(** ** Python strings *)

Module PyStr.

(** [str.isspace] on one character of the Latin-1 range: TAB..CR,
    FS..US, SPACE, NEL (U+0085) and NBSP (U+00A0). *)
Definition is_space (c : ascii) : bool :=
  let n := N_of_ascii c in
  ((9 <=? n) && (n <=? 13) || (28 <=? n) && (n <=? 32)
   || (n =? 133) || (n =? 160))%N.

(** [str.lower] on one character of the Latin-1 range: A..Z and the
    accented capitals U+00C0..U+00DE (without the multiplication sign
    U+00D7) move up by 32. *)
Definition lower_char (c : ascii) : ascii :=
  let n := N_of_ascii c in
  if ((65 <=? n) && (n <=? 90)
      || (192 <=? n) && (n <=? 222) && negb (n =? 215))%N
  then ascii_of_N (n + 32) else c.

Fixpoint lower (s : string) : string :=
  match s with
  | EmptyString => EmptyString
  | String c s' => String (lower_char c) (lower s')
  end.

Fixpoint lstrip (s : string) : string :=
  match s with
  | EmptyString => EmptyString
  | String c s' => if is_space c then lstrip s' else s
  end.

Fixpoint rstrip (s : string) : string :=
  match s with
  | EmptyString => EmptyString
  | String c s' =>
      match rstrip s' with
      | EmptyString => if is_space c then EmptyString else String c EmptyString
      | r => String c r
      end
  end.

(** [s.strip()] *)
Definition strip (s : string) : string := rstrip (lstrip s).

(** [needle in haystack] *)
Fixpoint contains (needle haystack : string) : bool :=
  String.prefix needle haystack
  || match haystack with
     | EmptyString => false
     | String _ h => contains needle h
     end.

(** Truth value of a string: [bool(s)]. *)
Definition truthy (s : string) : bool := negb (String.eqb s "").

Definition all_space (s : string) : bool :=
  forallb is_space (list_ascii_of_string s).

End PyStr.

(** [app/utils/common_utils.py]:
    [return value.strip().lower() if value else ""] *)
Definition normalize_string (value : string) : string :=
  if PyStr.truthy value then PyStr.lower (PyStr.strip value) else "".

(** ** Python lists: slicing and sorting *)

Module PyList.

(** Normalisation of one slice bound against a list of length [len]:
    a negative bound counts from the end, and both are clamped. *)
Definition slice_index (len i : Z) : Z :=
  if i <? 0 then Z.max 0 (i + len) else Z.min i len.

(** [l[start:stop]] *)
Definition slice {A} (l : list A) (start stop : Z) : list A :=
  let len := Z.of_nat (length l) in
  let lo := slice_index len start in
  let hi := slice_index len stop in
  take (Z.to_nat (hi - lo)) (drop (Z.to_nat lo) l).

Section Sort.
Context {A K : Type} (key : A -> K) (lt : K -> K -> bool).

(** [x] travels right past every element whose key is strictly smaller,
    and stops in front of the first one that is not: an element never
    overtakes one with an equal key. *)
Fixpoint insert (x : A) (l : list A) : list A :=
  match l with
  | [] => [x]
  | y :: l' => if lt (key y) (key x) then y :: insert x l' else x :: l
  end.

Fixpoint stable_sort (l : list A) : list A :=
  match l with
  | [] => []
  | x :: l' => insert x (stable_sort l')
  end.

(** [l.sort(key=key, reverse=reverse)], as a function of the list. *)
Definition sort (reverse : bool) (l : list A) : list A :=
  if reverse then rev (stable_sort (rev l)) else stable_sort l.

(** [x] may stand before [y] in ascending order: [y]'s key is not
    strictly below [x]'s. *)
Definition in_order (x y : A) : Prop := lt (key y) (key x) = false.

End Sort.

End PyList.

(** ** Python dicts with integer keys *)

Module PyDict.

Definition t (V : Type) : Type := list (Z * V).

Definition empty {V} : t V := [].

(** [d.get(k)] *)
Fixpoint get {V} (k : Z) (d : t V) : option V :=
  match d with
  | [] => None
  | (k', v) :: d' => if k =? k' then Some v else get k d'
  end.

(** [k in d] *)
Definition mem {V} (k : Z) (d : t V) : bool :=
  match get k d with Some _ => true | None => false end.

(** [d[k] = v]: a present key keeps its place, a new key goes last. *)
Fixpoint set {V} (k : Z) (v : V) (d : t V) : t V :=
  match d with
  | [] => [(k, v)]
  | (k', v') :: d' =>
      if k =? k' then (k, v) :: d' else (k', v') :: set k v d'
  end.

(** [del d[k]] *)
Definition del {V} (k : Z) (d : t V) : t V :=
  List.filter (fun kv => negb (k =? fst kv)) d.

(** [d.keys()], [d.values()], [len(d)] *)
Definition keys {V} (d : t V) : list Z := map fst d.
Definition values {V} (d : t V) : list V := map snd d.
Definition len {V} (d : t V) : Z := Z.of_nat (length d).

(** Keys of a dict are pairwise distinct. *)
Definition wf {V} (d : t V) : Prop := NoDup (keys d).

End PyDict.

(** ** The models of [app/models/book.py]

    A value of a model class is the record of its validated fields.
    Where two models share a field name, the fields of [BookCreate] are
    prefixed [bc_], filter fields of [BookFilters] [f_], and the page and
    limit of [PaginatedResponse] [pr_].  [BookResponse] extends
    [BookCreate] by [id]. *)

Record BookCreate := {
  bc_title : string;
  bc_author : string;
  bc_year : Z;
  bc_tags : option (list string)
}.

Record BookResponse := {
  id : Z;
  title : string;
  author : string;
  year : Z;
  tags : option (list string)
}.

Record BookFilters := {
  f_author : option string;
  f_year : option Z;
  f_search : option string;
  sort_by : option string;
  sort_order : option string;
  page : Z;
  limit : Z
}.

Record PaginatedResponse (T : Type) := {
  items : list T;
  total : Z;
  pr_page : Z;
  pr_limit : Z;
  has_next : bool;
  has_prev : bool
}.
Arguments items {T} _.
Arguments total {T} _.
Arguments pr_page {T} _.
Arguments pr_limit {T} _.
Arguments has_next {T} _.
Arguments has_prev {T} _.

Record StatsResponse := {
  total_books : Z;
  unique_authors : Z
}.

(** [PaginatedResponse(items=..., total=..., ...)]: the model declares
    [total >= 0], [page >= 1] and [limit >= 1]; pydantic raises a
    validation error otherwise ([None]). *)
Definition PaginatedResponse_new {T} (items : list T) (total page limit : Z)
    (has_next has_prev : bool) : option (PaginatedResponse T) :=
  if (0 <=? total) && (1 <=? page) && (1 <=? limit)
  then Some {| items := items; total := total; pr_page := page;
               pr_limit := limit; has_next := has_next;
               has_prev := has_prev |}
  else None.


(** Truth value of an optional field, as in [if filters.author:]. *)
Definition truthy_str (o : option string) : bool :=
  match o with Some s => PyStr.truthy s | None => false end.

Definition truthy_int (o : option Z) : bool :=
  match o with Some n => negb (n =? 0) | None => false end.

(** ** [PaginationService.paginate] *)

Definition paginate {T} (items : list T) (page limit : Z)
    : option (PaginatedResponse T) :=
  let total := Z.of_nat (length items) in
  let start_idx := (page - 1) * limit in
  let end_idx := start_idx + limit in
  PaginatedResponse_new
    (PyList.slice items start_idx end_idx)
    total page limit
    (page * limit <? total)
    (1 <? page).

(** ** [InMemoryBookRepository] *)

Record InMemoryBookRepository := {
  _books : PyDict.t BookResponse;
  _next_id : Z
}.

(** [__init__] *)
Definition new_repository : InMemoryBookRepository :=
  {| _books := PyDict.empty; _next_id := 1 |}.

(** [load_initial_books]: one iteration of the loop, then the loop. *)
Definition load_one (self : InMemoryBookRepository) (book : BookResponse)
    : InMemoryBookRepository :=
  {| _books := PyDict.set (id book) book (_books self);
     _next_id := Z.max (_next_id self) (id book + 1) |}.

Definition load_initial_books (self : InMemoryBookRepository)
    (books : list BookResponse) : InMemoryBookRepository :=
  fold_left load_one books self.

(** [book_data.tags or []] *)
Definition tags_or_empty (t : option (list string)) : list string :=
  match t with
  | Some (x :: l) => x :: l
  | _ => []
  end.

(** [create_book].  The fields handed to [BookResponse(...)] come from a
    validated [BookCreate] and carry the same constraints there, so the
    construction keeps them as they are. *)
Definition create_book (self : InMemoryBookRepository) (book_data : BookCreate)
    : BookResponse * InMemoryBookRepository :=
  let book_id := _next_id self in
  let next := _next_id self + 1 in
  let book := {| id := book_id;
                 title := bc_title book_data;
                 author := bc_author book_data;
                 year := bc_year book_data;
                 tags := Some (tags_or_empty (bc_tags book_data)) |} in
  (book, {| _books := PyDict.set book_id book (_books self);
            _next_id := next |}).

Definition get_book (self : InMemoryBookRepository) (book_id : Z)
    : option BookResponse :=
  PyDict.get book_id (_books self).

Definition delete_book (self : InMemoryBookRepository) (book_id : Z)
    : bool * InMemoryBookRepository :=
  if PyDict.mem book_id (_books self)
  then (true, {| _books := PyDict.del book_id (_books self);
                 _next_id := _next_id self |})
  else (false, self).

(** The three filter steps of [get_books], in source order. *)
Definition author_matches (needle : string) (book : BookResponse) : bool :=
  PyStr.contains needle (normalize_string (author book)).

Definition title_matches (needle : string) (book : BookResponse) : bool :=
  PyStr.contains needle (normalize_string (title book)).

Definition apply_filters (filters : BookFilters) (books : list BookResponse)
    : list BookResponse :=
  let books :=
    if truthy_str (f_author filters) then
      let author_normalized := normalize_string (default "" (f_author filters)) in
      List.filter (author_matches author_normalized) books
    else books in
  let books :=
    if truthy_int (f_year filters) then
      List.filter
        (fun book =>
           match f_year filters with Some y => year book =? y | None => false end)
        books
    else books in
  let books :=
    if truthy_str (f_search filters) then
      let search_normalized := normalize_string (default "" (f_search filters)) in
      List.filter (title_matches search_normalized) books
    else books in
  books.

Definition year_key (x : BookResponse) : Z := year x.
Definition author_key (x : BookResponse) : string := normalize_string (author x).

(** The sorting step of [get_books]. *)
Definition apply_sorting (filters : BookFilters) (books : list BookResponse)
    : list BookResponse :=
  if truthy_str (sort_by filters) then
    let reverse := bool_decide (sort_order filters = Some "desc") in
    if bool_decide (sort_by filters = Some "year") then
      PyList.sort year_key Z.ltb reverse books
    else if bool_decide (sort_by filters = Some "author") then
      PyList.sort author_key String.ltb reverse books
    else books
  else books.

(** The filtered and sorted sequence handed to the paginator. *)
Definition query_sequence (self : InMemoryBookRepository) (filters : BookFilters)
    : list BookResponse :=
  apply_sorting filters (apply_filters filters (PyDict.values (_books self))).

Definition get_books (self : InMemoryBookRepository) (filters : BookFilters)
    : option (PaginatedResponse BookResponse) :=
  paginate (query_sequence self filters) (page filters) (limit filters).

Definition get_stats (self : InMemoryBookRepository) : StatsResponse :=
  let total_books := PyDict.len (_books self) in
  let authors : gset string :=
    list_to_set (map author (PyDict.values (_books self))) in
  {| total_books := total_books;
     unique_authors := Z.of_nat (size authors) |}.

(** ** The repository interface

    [BookRepository] is the abstract base class.  Each of its methods
    takes the repository and returns its result together with the
    repository afterwards; [InMemoryBookRepository] is the one
    implementation. *)

Class BookRepository (R : Type) := {
  repo_create_book : R -> BookCreate -> BookResponse * R;
  repo_get_book : R -> Z -> option BookResponse * R;
  repo_delete_book : R -> Z -> bool * R;
  repo_get_books : R -> BookFilters -> option (PaginatedResponse BookResponse) * R;
  repo_get_stats : R -> StatsResponse * R;
  repo_load_initial_books : R -> list BookResponse -> R
}.

#[export] Instance InMemory_BookRepository : BookRepository InMemoryBookRepository := {
  repo_create_book := create_book;
  repo_get_book self book_id := (get_book self book_id, self);
  repo_delete_book := delete_book;
  repo_get_books self filters := (get_books self filters, self);
  repo_get_stats self := (get_stats self, self);
  repo_load_initial_books := load_initial_books
}.

(** ** Calls against one repository

    The adapter layer drives one repository object through a sequence of
    calls; [run] threads the repository state through them and collects
    what each call returns. *)

Inductive call :=
| CreateBook (book_data : BookCreate)
| GetBook (book_id : Z)
| DeleteBook (book_id : Z)
| GetBooks (filters : BookFilters)
| GetStats.

Inductive reply :=
| Created (book : BookResponse)
| Got (book : option BookResponse)
| Deleted (ok : bool)
| Listed (result : option (PaginatedResponse BookResponse))
| Counted (stats : StatsResponse).

Definition step {R} `{BookRepository R} (self : R) (c : call) : reply * R :=
  match c with
  | CreateBook book_data =>
      let '(book, self') := repo_create_book self book_data in (Created book, self')
  | GetBook book_id =>
      let '(book, self') := repo_get_book self book_id in (Got book, self')
  | DeleteBook book_id =>
      let '(ok, self') := repo_delete_book self book_id in (Deleted ok, self')
  | GetBooks filters =>
      let '(result, self') := repo_get_books self filters in (Listed result, self')
  | GetStats =>
      let '(stats, self') := repo_get_stats self in (Counted stats, self')
  end.

Fixpoint run {R} `{BookRepository R} (self : R) (cs : list call) : list reply * R :=
  match cs with
  | [] => ([], self)
  | c :: cs' =>
      let '(r, self') := step self c in
      let '(rs, self'') := run self' cs' in
      (r :: rs, self'')
  end.

(** The ids handed out by the [create_book] calls of a run, in order. *)
Fixpoint created_ids (rs : list reply) : list Z :=
  match rs with
  | [] => []
  | Created book :: rs' => id book :: created_ids rs'
  | _ :: rs' => created_ids rs'
  end.

(** Field updates of a filter specification. *)
Definition with_author (a : option string) (f : BookFilters) : BookFilters :=
  {| f_author := a; f_year := f_year f; f_search := f_search f;
     sort_by := sort_by f; sort_order := sort_order f;
     page := page f; limit := limit f |}.



Definition with_sort (field order : option string) (f : BookFilters) : BookFilters :=
  {| f_author := f_author f; f_year := f_year f; f_search := f_search f;
     sort_by := field; sort_order := order;
     page := page f; limit := limit f |}.

(** Number of pages of [n] items at [limit] items a page: the ceiling of
    [n / limit]. *)
Definition page_count (n limit : Z) : Z := (n + limit - 1) / limit.

(** ** Exceptions and outcomes

    What a call can end in: a value, or a raised exception.  Exceptions
    are kept by the classes the [except] clauses of the code tell apart;
    [msg] is [str(e)].  [BaseOnly] stands for the exceptions outside
    [Exception] (cancellation, interrupts), which [except Exception] does
    not catch.  Calls to the logger write a log line and nothing else;
    they are left out. *)

Inductive PyExc :=
| ValueError (msg : string)
| TypeError (msg : string)
| FileNotFoundError (msg : string)
| AttributeError (msg : string)
| HTTPException (status_code : Z) (detail : string)
| OtherException (msg : string)
| BaseOnly (msg : string).

Inductive outcome (A : Type) :=
| Return (a : A)
| Raise (e : PyExc).
Arguments Return {A} _.
Arguments Raise {A} _.

(** [isinstance(e, Exception)] *)
Definition is_Exception (e : PyExc) : bool :=
  match e with BaseOnly _ => false | _ => true end.

(** [app/utils/common_utils.py], [handle_repository_errors]: the wrapper
    around an operation named [operation_name] whose body ended in
    [func]. *)
Definition handle_repository_errors {A} (operation_name : string)
    (func : outcome A) : outcome A :=
  match func with
  | Return a => Return a
  | Raise (ValueError msg) =>
      Raise (HTTPException 400
               ("Invalid data for " +:+ operation_name +:+ ": " +:+ msg))
  | Raise (FileNotFoundError _) =>
      Raise (HTTPException 404 ("Resource not found for " +:+ operation_name))
  | Raise (AttributeError _) =>
      Raise (HTTPException 500
               ("Internal server error occurred during " +:+ operation_name))
  | Raise (BaseOnly msg) => Raise (BaseOnly msg)
  | Raise _ =>
      Raise (HTTPException 500
               ("An unexpected error occurred during " +:+ operation_name))
  end.

(** ** [app/utils/data_loader.py] *)

Record BookCreateFromJSON := {
  j_title : string;
  j_author : string;
  release_year : Z;
  j_tags : option (list string)
}.

(** [BookCreateFromJSON.to_book_create] *)
Definition to_book_create (self : BookCreateFromJSON) : BookCreate :=
  {| bc_title := j_title self;
     bc_author := j_author self;
     bc_year := release_year self;
     bc_tags := j_tags self |}.

(** [enumerate(l, start)] *)
Fixpoint enumerate {A} (l : list A) (start : Z) : list (Z * A) :=
  match l with
  | [] => []
  | x :: l' => (start, x) :: enumerate l' (start + 1)
  end.

Module DataLoader.

(** What [_load_json_file] finds on disk: no file, a file that cannot be
    read (the exception [open] or [json.load] raises, other than a
    decoding error), text that is not JSON, JSON that is not a list, or a
    list of entries. *)
Inductive json_file (Raw : Type) :=
| Missing
| Unreadable (e : PyExc)
| Malformed (msg : string)
| NotAList
| Entries (data : list Raw).
Arguments Missing {Raw}.
Arguments Unreadable {Raw} _.
Arguments Malformed {Raw} _.
Arguments NotAList {Raw}.
Arguments Entries {Raw} _.

Definition _load_json_file {Raw} (file : json_file Raw) : outcome (list Raw) :=
  match file with
  | Missing => Return []
  | Unreadable e => Raise e
  | Malformed msg => Raise (ValueError msg)
  | NotAList => Raise (ValueError "JSON file should contain a list of books")
  | Entries data => Return data
  end.

(** [BookResponse(id=idx, **book.model_dump())] for each book, counted
    from 1. *)
Definition _assign_ids (books : list BookCreate) : list BookResponse :=
  map (fun '(idx, book) =>
         {| id := idx;
            title := bc_title book;
            author := bc_author book;
            year := bc_year book;
            tags := bc_tags book |})
      (enumerate books 1).

Section Validation.
(** [BookCreateFromJSON] built from the fields of one raw entry: pydantic
    validation; [None] is the [ValueError] or [TypeError] it raises. *)
Context {Raw : Type} (BookCreateFromJSON_new : Raw -> option BookCreateFromJSON).

(** Entries that fail validation are skipped. *)
Definition _validate_and_transform_books (raw_data : list Raw) : list BookCreate :=
  omap (fun book_data => to_book_create <$> BookCreateFromJSON_new book_data)
       raw_data.

Definition load_initial_books (file : json_file Raw) : outcome (list BookResponse) :=
  match _load_json_file file with
  | Raise e => Raise e
  | Return raw_data =>
      let validated_books := _validate_and_transform_books raw_data in
      let books_with_ids := _assign_ids validated_books in
      Return books_with_ids
  end.
End Validation.

End DataLoader.

(** ** [app/main.py] and [app/dependencies.py]

    [app.state] either carries a [book_repository] attribute or not. *)

Record AppState := {
  book_repository : option InMemoryBookRepository
}.

(** The startup half of [lifespan]: every [Exception] of the loader is
    caught and the catalogue starts with what the repository holds. *)
Definition lifespan_startup {Raw}
    (BookCreateFromJSON_new : Raw -> option BookCreateFromJSON)
    (file : DataLoader.json_file Raw) : outcome AppState :=
  let book_repository := new_repository in
  match DataLoader.load_initial_books BookCreateFromJSON_new file with
  | Return initial_books =>
      Return {| book_repository :=
                  Some (load_initial_books book_repository initial_books) |}
  | Raise e =>
      if is_Exception e
      then Return {| book_repository := Some book_repository |}
      else Raise e
  end.

(** [get_book_repository] *)
Definition get_book_repository (state : AppState) : outcome InMemoryBookRepository :=
  match book_repository state with
  | None => Raise (HTTPException 503 "Book repository not initialized")
  | Some repository => Return repository
  end.

(** ** [app/routers/books.py]: the two handlers that answer "not found" *)

Record DeleteReply := { message : string }.

Definition router_get_book {R} `{BookRepository R} (book_id : Z) (repository : R)
    : outcome BookResponse * R :=
  let '(book, repository) := repo_get_book repository book_id in
  match book with
  | None =>
      (Raise (HTTPException 404
                ("Book with ID " +:+ pretty book_id +:+ " not found")),
       repository)
  | Some book => (Return book, repository)
  end.

Definition router_delete_book {R} `{BookRepository R} (book_id : Z) (repository : R)
    : outcome DeleteReply * R :=
  let '(success, repository) := repo_delete_book repository book_id in
  if success
  then (Return {| message := "Book with ID " +:+ pretty book_id
                             +:+ " has been deleted successfully" |},
        repository)
  else (Raise (HTTPException 404
                 ("Book with ID " +:+ pretty book_id +:+ " not found")),
        repository).

(** [create_book] of the router: the repository call under
    [handle_repository_errors]. *)
Definition router_create_book {R} `{BookRepository R} (book_data : BookCreate)
    (repository : R) : outcome BookResponse * R :=
  let '(book, repository) := repo_create_book repository book_data in
  (handle_repository_errors "create_book" (Return book), repository).

(** ** Vocabulary of the statements *)

(** The key [get_books] sorts by, for either sort field. *)
Definition sort_key (field : string) (book : BookResponse) : Z + string :=
  if bool_decide (field = "year") then inl (year_key book)
  else inr (author_key book).

Definition has_sort_key (field : string) (k : Z + string) (book : BookResponse)
    : bool :=
  bool_decide (sort_key field book = k).

(** The sub-predicates of a filter specification as the specification
    words them: substring containment between normalized strings, exact
    equality of years, and no constraint from an absent field. *)
Definition author_pred (a : option string) (book : BookResponse) : bool :=
  match a with
  | None => true
  | Some a => PyStr.contains (normalize_string a) (normalize_string (author book))
  end.

Definition year_pred (y : option Z) (book : BookResponse) : bool :=
  match y with
  | None => true
  | Some y => (y =? 0) || (year book =? y)
  end.

Definition search_pred (s : option string) (book : BookResponse) : bool :=
  match s with
  | None => true
  | Some s => PyStr.contains (normalize_string s) (normalize_string (title book))
  end.

Definition selected (filters : BookFilters) (book : BookResponse) : bool :=
  author_pred (f_author filters) book
  && year_pred (f_year filters) book
  && search_pred (f_search filters) book.

(** The field a filter specification sorts by (any other string when it
    does not sort). *)
Definition sort_field (filters : BookFilters) : string :=
  default "" (sort_by filters).

(** The order of years a specification asks for. *)
Definition year_order (filters : BookFilters) (a b : BookResponse) : Prop :=
  if bool_decide (sort_order filters = Some "desc")
  then year b <= year a else year a <= year b.

(** The order of normalized authors a specification asks for. *)
Definition author_order (filters : BookFilters) (a b : BookResponse) : Prop :=
  if bool_decide (sort_order filters = Some "desc")
  then String.leb (author_key b) (author_key a) = true
  else String.leb (author_key a) (author_key b) = true.

(** Every record of the store sits under its own id. *)
Definition keys_are_ids (self : InMemoryBookRepository) : Prop :=
  Forall (fun kv => id kv.2 = kv.1) (_books self).

(** The stores the application can reach: a fresh repository, loaded
    once (possibly with nothing), then driven through calls. *)
Definition reachable (self : InMemoryBookRepository) : Prop :=
  exists (books : list BookResponse) (cs : list call),
    self = (run (load_initial_books new_repository books) cs).2.

(** The record [_assign_ids] builds from a book and its number. *)
Definition with_id (idx_book : Z * BookCreate) : BookResponse :=
  {| id := idx_book.1;
     title := bc_title idx_book.2;
     author := bc_author idx_book.2;
     year := bc_year idx_book.2;
     tags := bc_tags idx_book.2 |}.

(** Largest element of a list of integers, if there is one. *)
Definition max_of (l : list Z) : option Z :=
  match l with
  | [] => None
  | x :: l' => Some (fold_left Z.max l' x)
  end.

(** Every key of the store lies below the id counter. *)
Definition ids_below_counter (self : InMemoryBookRepository) : Prop :=
  Forall (fun k => k < _next_id self) (PyDict.keys (_books self)).

(** ** Sample data *)

Module Sample.

Definition mk (i : Z) (t a : string) (y : Z) : BookResponse :=
  {| id := i; title := t; author := a; year := y; tags := Some [] |}.

Definition clean_code := mk 1 "Clean Code" "Robert C. Martin" 2008.
Definition clean_arch := mk 2 "Clean Architecture" "robert c. martin" 2008.
Definition pragmatic := mk 3 "The Pragmatic Programmer" "Andrew Hunt" 1999.

Definition shelf : InMemoryBookRepository :=
  load_initial_books new_repository [clean_code; clean_arch; pragmatic].

Definition all_filters : BookFilters :=
  {| f_author := None; f_year := None; f_search := None;
     sort_by := None; sort_order := Some "asc"; page := 1; limit := 10 |}.

End Sample.

Example sample_normalize :
  normalize_string "  ROBERT C. Martin " = "robert c. martin".
Proof. reflexivity. Qed.

Example sample_sort_year_asc :
  map id (query_sequence Sample.shelf (with_sort (Some "year") (Some "asc") Sample.all_filters))
  = [3; 1; 2].
Proof. reflexivity. Qed.

Example sample_sort_year_desc :
  map id (query_sequence Sample.shelf (with_sort (Some "year") (Some "desc") Sample.all_filters))
  = [1; 2; 3].
Proof. reflexivity. Qed.

Example sample_stats :
  get_stats Sample.shelf = {| total_books := 3; unique_authors := 3 |}.
Proof. vm_compute. reflexivity. Qed.

Example sample_desc_page :
  items <$> get_books Sample.shelf
              (with_sort (Some "year") (Some "desc") Sample.all_filters)
  = Some [Sample.clean_code; Sample.clean_arch; Sample.pragmatic].
Proof. reflexivity. Qed.

Example sample_empty_store :
  get_books new_repository Sample.all_filters
  = Some {| items := []; total := 0; pr_page := 1; pr_limit := 10;
            has_next := false; has_prev := false |}
  /\ get_stats new_repository = {| total_books := 0; unique_authors := 0 |}.
Proof. split; vm_compute; reflexivity. Qed.

Example sample_stats_after_delete :
  let d (a : string) := {| bc_title := "Book"; bc_author := a;
                           bc_year := 2023; bc_tags := None |} in
  (run new_repository
       [CreateBook (d "Author 1"); CreateBook (d "Author 1");
        CreateBook (d "Author 2"); GetStats; DeleteBook 3; GetStats;
        DeleteBook 3]).1
  = [Created (Sample.mk 1 "Book" "Author 1" 2023);
     Created (Sample.mk 2 "Book" "Author 1" 2023);
     Created (Sample.mk 3 "Book" "Author 2" 2023);
     Counted {| total_books := 3; unique_authors := 2 |};
     Deleted true;
     Counted {| total_books := 2; unique_authors := 1 |};
     Deleted false].
Proof. vm_compute. reflexivity. Qed.

Example sample_strip :
  PyStr.strip (String "009" (String "010" " Dune  ")) = "Dune"
  /\ PyStr.strip "   " = ""
  /\ PyStr.contains "martin" "robert c. martin" = true
  /\ PyStr.contains "martins" "robert c. martin" = false.
Proof. repeat split; reflexivity. Qed.

Example sample_page :
  (items <$> paginate [1; 2; 3; 4; 5; 6; 7; 8; 9; 10] 4 3) = Some [10]
  /\ (items <$> paginate [1; 2; 3; 4; 5; 6; 7; 8; 9; 10] 5 3) = Some []
  /\ paginate [1; 2; 3] 0 3 = None.
Proof. repeat split; reflexivity. Qed.

(** ** The paginator *)

Section Paginator.
Context {T : Type}.
Implicit Types (l : list T) (page limit : Z).

Lemma take_nil_any (n : nat) : take n (@nil T) = [].
Proof. by destruct n. Qed.

(** With non-negative bounds a slice is "skip [start], keep [n]". *)
Lemma slice_take_drop l (start n : Z) :
  0 <= start -> 0 <= n ->
  PyList.slice l start (start + n)
  = take (Z.to_nat n) (drop (Z.to_nat start) l).
Proof.
  intros Hs Hn. unfold PyList.slice, PyList.slice_index.
  destruct (Z.ltb_spec start 0) as [?|_]; [lia|].
  destruct (Z.ltb_spec (start + n) 0) as [?|_]; [lia|].
  set (len := Z.of_nat (length l)).
  destruct (Z.le_gt_cases len start) as [Hge|Hlt].
  - rewrite (drop_ge l (Z.to_nat (Z.min start len))) by (subst len; lia).
    rewrite (drop_ge l (Z.to_nat start)) by (subst len; lia).
    by rewrite !take_nil_any.
  - replace (Z.min start len) with start by lia.
    destruct (Z.le_gt_cases (start + n) len) as [Hfit|Hover].
    + f_equal. lia.
    + rewrite !take_ge; [done | | ]; rewrite length_drop; subst len; lia.
Qed.

Lemma paginate_ok l page limit :
  1 <= page -> 1 <= limit ->
  paginate l page limit =
    Some {| items := take (Z.to_nat limit) (drop (Z.to_nat ((page - 1) * limit)) l);
            total := Z.of_nat (length l);
            pr_page := page; pr_limit := limit;
            has_next := page * limit <? Z.of_nat (length l);
            has_prev := 1 <? page |}.
Proof.
  intros Hp Hl. unfold paginate, PaginatedResponse_new.
  rewrite slice_take_drop by nia.
  destruct (Z.leb_spec 0 (Z.of_nat (length l))); [|lia].
  destruct (Z.leb_spec 1 page); [|lia].
  destruct (Z.leb_spec 1 limit); [|lia].
  reflexivity.
Qed.

(** A page number past [page_count] starts at or after the end. *)
Lemma beyond_last_page (n page limit : Z) :
  0 <= n -> 1 <= limit -> page_count n limit < page -> n <= (page - 1) * limit.
Proof.
  unfold page_count. intros Hn Hl Hp.
  assert (Hd : (n + limit - 1) / limit <= page - 1) by lia.
  pose proof (Z.mod_pos_bound (n + limit - 1) limit ltac:(lia)) as Hm.
  pose proof (Z.div_mod (n + limit - 1) limit ltac:(lia)) as Hq.
  nia.
Qed.

Lemma page_count_covers (n limit : Z) :
  0 <= n -> 1 <= limit -> 0 <= page_count n limit /\ n <= page_count n limit * limit.
Proof.
  unfold page_count. intros Hn Hl.
  pose proof (Z.mod_pos_bound (n + limit - 1) limit ltac:(lia)) as Hm.
  pose proof (Z.div_mod (n + limit - 1) limit ltac:(lia)) as Hq.
  split; [apply Z.div_pos; lia | nia].
Qed.

(** The first [k] pages, concatenated, are the first [k * limit] items. *)
Lemma first_pages l limit (k : nat) :
  1 <= limit ->
  exists rs : list (PaginatedResponse T),
    Forall2 (fun p r => paginate l p limit = Some r) (seqZ 1 (Z.of_nat k)) rs
    /\ concat (items <$> rs) = take (k * Z.to_nat limit)%nat l.
Proof.
  intros Hl. induction k as [|k (rs & Hrs & Hcat)].
  - exists []. split; [constructor | done].
  - rewrite seqZ_S.
    eexists (rs ++ [_]). split.
    + apply Forall2_app; [exact Hrs|].
      constructor; [|constructor].
      apply paginate_ok; lia.
    + rewrite fmap_app, concat_app, Hcat. simpl. rewrite app_nil_r.
      replace (Z.to_nat ((1 + Z.of_nat k - 1) * limit))
        with (k * Z.to_nat limit)%nat by nia.
      rewrite take_take_drop. f_equal. lia.
Qed.

(** C3: for [page >= 1] and [limit >= 1], [paginate] succeeds and returns
    [total = len(sequence)], the items from [(page-1)*limit] on, at most
    [limit] of them, [has_next = (page*limit < total)] and
    [has_prev = (page > 1)]; a page beyond the last one is no error: its
    items are empty, [total] is the same and [has_next] is false. *)
Theorem paginate_contract l page limit :
  1 <= page -> 1 <= limit ->
  exists r,
    paginate l page limit = Some r
    /\ total r = Z.of_nat (length l)
    /\ items r = take (Z.to_nat limit) (drop (Z.to_nat ((page - 1) * limit)) l)
    /\ has_next r = bool_decide (page * limit < total r)
    /\ has_prev r = bool_decide (page > 1)
    /\ pr_page r = page /\ pr_limit r = limit
    /\ (page_count (Z.of_nat (length l)) limit < page ->
        items r = [] /\ has_next r = false).
Proof.
  intros Hp Hl. eexists. split; [by apply paginate_ok|]. simpl.
  split_and!; try reflexivity.
  - destruct (Z.ltb_spec (page * limit) (Z.of_nat (length l)));
      [by rewrite bool_decide_eq_true_2 | by rewrite bool_decide_eq_false_2; [|lia]].
  - destruct (Z.ltb_spec 1 page);
      [by rewrite bool_decide_eq_true_2; [|lia] | by rewrite bool_decide_eq_false_2; [|lia]].
  - intros Hbeyond. apply beyond_last_page in Hbeyond; [|lia..]. split.
    + rewrite drop_ge by lia. apply take_nil_any.
    + apply Z.ltb_ge. lia.
Qed.

(** C2: for [limit >= 1], the pages [1 .. ceil(len(seq)/limit)] all
    exist, and their items, concatenated in page order, are exactly the
    original sequence. *)
Theorem pagination_complete l limit :
  1 <= limit ->
  exists rs : list (PaginatedResponse T),
    Forall2 (fun p r => paginate l p limit = Some r)
            (seqZ 1 (page_count (Z.of_nat (length l)) limit)) rs
    /\ concat (items <$> rs) = l.
Proof.
  intros Hl.
  destruct (page_count_covers (Z.of_nat (length l)) limit) as [Hk Hcov]; [lia..|].
  destruct (first_pages l limit (Z.to_nat (page_count (Z.of_nat (length l)) limit)) Hl)
    as (rs & Hrs & Hcat).
  rewrite Z2Nat.id in Hrs by done.
  exists rs. split; [done|].
  rewrite Hcat. apply take_ge. nia.
Qed.

End Paginator.

(** ** [list.sort]: permutation, stability, and the effect of [reverse] *)

Section SortFacts.
Context {A K : Type} (key : A -> K) (lt : K -> K -> bool).

Local Abbreviation insert := (PyList.insert key lt).
Local Abbreviation stable_sort := (PyList.stable_sort key lt).
Local Abbreviation sort := (PyList.sort key lt).
Local Abbreviation in_order := (PyList.in_order key lt).

Lemma insert_Permutation x l : Permutation (insert x l) (x :: l).
Proof.
  induction l as [|y l IH]; simpl; [done|].
  destruct (lt (key y) (key x)); [|done].
  rewrite IH. apply perm_swap.
Qed.

Lemma stable_sort_Permutation l : Permutation (stable_sort l) l.
Proof.
  induction l as [|x l IH]; simpl; [done|].
  by rewrite insert_Permutation, IH.
Qed.

Lemma sort_Permutation reverse l : Permutation (sort reverse l) l.
Proof.
  destruct reverse; simpl; [|apply stable_sort_Permutation].
  by rewrite <- Permutation_rev, stable_sort_Permutation, <- Permutation_rev.
Qed.

(** *** Stability *)

Section Stable.
(** [p] selects records that never compare strictly below one another,
    for instance all records with one given key. *)
Context (p : A -> bool).
Hypothesis p_tied : forall x y, p x = true -> p y = true -> lt (key y) (key x) = false.

Lemma filter_insert x l : List.filter p (insert x l) = List.filter p (x :: l).
Proof.
  induction l as [|y l IH]; [done|].
  cbn [PyList.insert]. destruct (lt (key y) (key x)) eqn:Hlt; [|done].
  cbn [List.filter] in *. rewrite IH.
  destruct (p x) eqn:Hx, (p y) eqn:Hy; try done.
  by rewrite (p_tied x y) in Hlt.
Qed.

Lemma filter_stable_sort l : List.filter p (stable_sort l) = List.filter p l.
Proof.
  induction l as [|x l IH]; [done|].
  cbn [PyList.stable_sort]. rewrite filter_insert. simpl. by rewrite IH.
Qed.

Lemma filter_sort reverse l : List.filter p (sort reverse l) = List.filter p l.
Proof.
  destruct reverse; simpl; [|apply filter_stable_sort].
  by rewrite filter_rev, filter_stable_sort, filter_rev, rev_involutive.
Qed.
End Stable.

(** *** Sorting lists without ties *)

Section NoTies.
Hypothesis lt_asym : forall a b, lt a b = true -> lt b a = false.
Hypothesis lt_trans : forall a b c, lt a b = true -> lt b c = true -> lt a c = true.
Hypothesis lt_total : forall a b, lt a b = false -> lt b a = false -> a = b.



(** *** The result is in key order *)

Lemma in_order_trans x y z : in_order x y -> in_order y z -> in_order x z.
Proof.
  unfold PyList.in_order. intros Hxy Hyz.
  destruct (lt (key z) (key x)) eqn:Hzx; [|done].
  destruct (lt (key x) (key y)) eqn:Hlt.
  - by rewrite (lt_trans _ _ _ Hzx Hlt) in Hyz.
  - rewrite (lt_total _ _ Hlt Hxy) in Hzx. by rewrite Hzx in Hyz.
Qed.

Lemma insert_sorted x l :
  StronglySorted in_order l -> StronglySorted in_order (insert x l).
Proof.
  induction 1 as [|y l Hl IH Hy]; cbn [PyList.insert]; [by repeat constructor|].
  destruct (lt (key y) (key x)) eqn:Hyx.
  - constructor; [done|]. rewrite insert_Permutation.
    constructor; [|done]. by apply lt_asym.
  - constructor; [by constructor|]. constructor; [done|].
    eapply Forall_impl; [exact Hy|]. intros z Hz. by eapply in_order_trans.
Qed.

Lemma stable_sort_sorted l : StronglySorted in_order (stable_sort l).
Proof.
  induction l as [|x l IH]; cbn [PyList.stable_sort]; [constructor|].
  by apply insert_sorted.
Qed.

Lemma rev_sorted (R : relation A) l :
  StronglySorted R l -> StronglySorted (flip R) (rev l).
Proof.
  induction 1 as [|x l Hl IH Hx]; simpl; [constructor|].
  apply StronglySorted_app_2; [| done | by repeat constructor].
  intros y z Hy ->%list_elem_of_singleton. unfold flip.
  rewrite Forall_forall in Hx. apply Hx.
  apply list_elem_of_In, in_rev. by apply list_elem_of_In.
Qed.

(** Ascending without [reverse], descending with it. *)
Lemma sort_sorted (reverse : bool) l :
  StronglySorted (if reverse return relation A then flip in_order else in_order)
                 (sort reverse l).
Proof.
  destruct reverse; simpl; [apply rev_sorted|]; apply stable_sort_sorted.
Qed.

End NoTies.

End SortFacts.

(** ** The two key orders: [int.__lt__] and [str.__lt__] *)

Lemma Z_ltb_irrefl (a : Z) : (a <? a) = false.
Proof. apply Z.ltb_irrefl. Qed.

Lemma Z_ltb_asym (a b : Z) : (a <? b) = true -> (b <? a) = false.
Proof. intros ?%Z.ltb_lt. apply Z.ltb_ge. lia. Qed.

Lemma Z_ltb_trans (a b c : Z) : (a <? b) = true -> (b <? c) = true -> (a <? c) = true.
Proof. intros ?%Z.ltb_lt ?%Z.ltb_lt. apply Z.ltb_lt. lia. Qed.

Lemma Z_ltb_total (a b : Z) : (a <? b) = false -> (b <? a) = false -> a = b.
Proof. intros ?%Z.ltb_ge ?%Z.ltb_ge. lia. Qed.

Lemma ascii_compare_refl (c : ascii) : Ascii.compare c c = Eq.
Proof. unfold Ascii.compare. apply N.compare_refl. Qed.

Lemma ascii_compare_lt_trans (a b c : ascii) :
  Ascii.compare a b = Lt -> Ascii.compare b c = Lt -> Ascii.compare a c = Lt.
Proof.
  unfold Ascii.compare. rewrite !N.compare_lt_iff. apply N.lt_trans.
Qed.

Lemma string_compare_refl (s : string) : String.compare s s = Eq.
Proof.
  induction s as [|c s IH]; simpl; [done|]. by rewrite ascii_compare_refl.
Qed.

Lemma string_compare_lt_trans (a b c : string) :
  String.compare a b = Lt -> String.compare b c = Lt -> String.compare a c = Lt.
Proof.
  revert b c. induction a as [|x a IH]; intros [|y b] [|z c]; simpl; try done.
  destruct (Ascii.compare x y) eqn:Hxy, (Ascii.compare y z) eqn:Hyz; try done.
  - apply Ascii.compare_eq_iff in Hxy as ->. rewrite Hyz. apply IH.
  - apply Ascii.compare_eq_iff in Hxy as ->. by rewrite Hyz.
  - apply Ascii.compare_eq_iff in Hyz as <-. by rewrite Hxy.
  - by rewrite (ascii_compare_lt_trans _ _ _ Hxy Hyz).
Qed.

Lemma string_ltb_irrefl (a : string) : String.ltb a a = false.
Proof. unfold String.ltb. by rewrite string_compare_refl. Qed.

Lemma string_ltb_asym (a b : string) : String.ltb a b = true -> String.ltb b a = false.
Proof.
  unfold String.ltb. rewrite (String.compare_antisym b a).
  by destruct (String.compare a b).
Qed.

Lemma string_ltb_trans (a b c : string) :
  String.ltb a b = true -> String.ltb b c = true -> String.ltb a c = true.
Proof.
  unfold String.ltb. intros Hab Hbc.
  destruct (String.compare a b) eqn:Eab; try done.
  destruct (String.compare b c) eqn:Ebc; try done.
  by rewrite (string_compare_lt_trans _ _ _ Eab Ebc).
Qed.

Lemma string_ltb_total (a b : string) :
  String.ltb a b = false -> String.ltb b a = false -> a = b.
Proof.
  unfold String.ltb. rewrite (String.compare_antisym b a).
  destruct (String.compare a b) eqn:E; simpl; try done.
  intros _ _. by apply String.compare_eq_iff.
Qed.

(** ** Substring containment *)

Lemma prefix_app (n h : string) :
  String.prefix n h = true <-> exists s, h = (n ++ s)%string.
Proof.
  revert h. induction n as [|a n IH]; intros h; simpl.
  - destruct h; split; eauto.
  - destruct h as [|b h]; simpl; [split; [done | by intros [s ?]]|].
    destruct (ascii_dec a b) as [->|Hne].
    + rewrite IH. split; intros [s Hs]; exists s.
      * by rewrite Hs.
      * change (String b n ++ s)%string with (String b (n ++ s)%string) in Hs.
        congruence.
    + split; [done|]. intros [s Hs].
      change (String a n ++ s)%string with (String a (n ++ s)%string) in Hs.
      congruence.
Qed.

(** [contains needle haystack] holds exactly when the haystack is some
    text, the needle, and some more text. *)
Lemma contains_spec (n h : string) :
  PyStr.contains n h = true <-> exists p s, h = (p ++ n ++ s)%string.
Proof.
  induction h as [|c h IH]; cbn [PyStr.contains].
  - rewrite orb_false_r, prefix_app. split.
    + intros [s Hs]. by exists "", s.
    + intros ([|? p] & s & Hs); [by exists s | done].
  - rewrite orb_true_iff, IH, prefix_app. split.
    + intros [[s Hs] | (p & s & ->)].
      * by exists "", s.
      * by exists (String c p), s.
    + intros ([|c' p] & s & Hs).
      * left. by exists s.
      * right. exists p, s.
        change (String c' p ++ n ++ s)%string
          with (String c' (p ++ n ++ s)%string) in Hs.
        congruence.
Qed.

(** ** The query pipeline: filtering *)

Lemma contains_empty (s : string) : PyStr.contains "" s = true.
Proof. by destruct s. Qed.

Lemma truthy_false_empty (s : string) : PyStr.truthy s = false -> s = "".
Proof.
  unfold PyStr.truthy. intros H%negb_false_iff. by apply String.eqb_eq.
Qed.

Lemma filter_filter {A} (p q : A -> bool) (l : list A) :
  List.filter q (List.filter p l) = List.filter (fun x => p x && q x) l.
Proof.
  induction l as [|x l IH]; [done|]. simpl.
  destruct (p x); simpl; [destruct (q x)|]; by rewrite IH.
Qed.

Lemma filter_true {A} (p : A -> bool) (l : list A) :
  (forall x, p x = true) -> List.filter p l = l.
Proof.
  intros Hp. induction l as [|x l IH]; [done|]. simpl. by rewrite Hp, IH.
Qed.

Lemma author_step (a : option string) (books : list BookResponse) :
  (if truthy_str a
   then List.filter (author_matches (normalize_string (default "" a))) books
   else books)
  = List.filter (author_pred a) books.
Proof.
  destruct a as [a|]; simpl; [|by rewrite filter_true].
  destruct (PyStr.truthy a) eqn:Ha; [done|].
  apply truthy_false_empty in Ha as ->.
  rewrite filter_true; [done|]. intros x. apply contains_empty.
Qed.

Lemma search_step (s : option string) (books : list BookResponse) :
  (if truthy_str s
   then List.filter (title_matches (normalize_string (default "" s))) books
   else books)
  = List.filter (search_pred s) books.
Proof.
  destruct s as [s|]; simpl; [|by rewrite filter_true].
  destruct (PyStr.truthy s) eqn:Hs; [done|].
  apply truthy_false_empty in Hs as ->.
  rewrite filter_true; [done|]. intros x. apply contains_empty.
Qed.

Lemma year_step (y : option Z) (books : list BookResponse) :
  (if truthy_int y
   then List.filter
          (fun book => match y with Some y => year book =? y | None => false end)
          books
   else books)
  = List.filter (year_pred y) books.
Proof.
  destruct y as [y|]; simpl; [|by rewrite filter_true].
  destruct (Z.eqb_spec y 0) as [->|Hy]; simpl; [by rewrite filter_true|].
  apply List.filter_ext. intros x. unfold year_pred.
  by destruct (Z.eqb_spec y 0).
Qed.

(** The filter steps compute the conjunction of the sub-predicates. *)
Lemma apply_filters_selected (filters : BookFilters) (books : list BookResponse) :
  apply_filters filters books = List.filter (selected filters) books.
Proof.
  unfold apply_filters. cbv zeta.
  rewrite author_step, year_step, search_step, !filter_filter.
  apply List.filter_ext. intros x. unfold selected.
  by destruct (author_pred _ x), (year_pred _ x), (search_pred _ x).
Qed.


Lemma lstrip_all_space (s : string) : PyStr.all_space s = true -> PyStr.lstrip s = "".
Proof.
  unfold PyStr.all_space. induction s as [|c s IH]; simpl; [done|].
  intros [Hc Hs]%andb_true_iff. rewrite Hc. by apply IH.
Qed.

Lemma strip_all_space (s : string) : PyStr.all_space s = true -> PyStr.strip s = "".
Proof. intros H. unfold PyStr.strip. by rewrite lstrip_all_space. Qed.




(** ** The query pipeline: sorting *)

(** Records that share a sort key are tied under the key's order. *)
Lemma year_tied (k : Z + string) (x y : BookResponse) :
  has_sort_key "year" k x = true -> has_sort_key "year" k y = true ->
  (year_key y <? year_key x) = false.
Proof.
  unfold has_sort_key, sort_key. simpl.
  intros Hx%bool_decide_eq_true Hy%bool_decide_eq_true.
  assert (year_key x = year_key y) as -> by congruence.
  apply Z_ltb_irrefl.
Qed.

Lemma author_tied (k : Z + string) (x y : BookResponse) :
  has_sort_key "author" k x = true -> has_sort_key "author" k y = true ->
  String.ltb (author_key y) (author_key x) = false.
Proof.
  unfold has_sort_key, sort_key. simpl.
  intros Hx%bool_decide_eq_true Hy%bool_decide_eq_true.
  assert (author_key x = author_key y) as -> by congruence.
  apply string_ltb_irrefl.
Qed.



(** Sorting keeps the records of any one key in the order it found them. *)
Lemma apply_sorting_stable (filters : BookFilters) (k : Z + string) l :
  List.filter (has_sort_key (sort_field filters) k) (apply_sorting filters l)
  = List.filter (has_sort_key (sort_field filters) k) l.
Proof.
  unfold apply_sorting, sort_field.
  destruct (truthy_str (sort_by filters)); [|done].
  case_bool_decide as Hy.
  - rewrite Hy. simpl. apply filter_sort, year_tied.
  - case_bool_decide as Ha; [|done].
    rewrite Ha. simpl. apply filter_sort, author_tied.
Qed.

(** C8: the sort is stable: in the sequence a query hands to the
    paginator, the records of any one sort key stand in the order of the
    store snapshot; and the same query evaluated twice in a row leaves the
    store as it was and returns the same result both times. *)
Theorem sort_stable_and_query_repeatable
    (self : InMemoryBookRepository) (filters : BookFilters) (k : Z + string) :
  List.filter (has_sort_key (sort_field filters) k) (query_sequence self filters)
  = List.filter
      (fun book => selected filters book && has_sort_key (sort_field filters) k book)
      (PyDict.values (_books self))
  /\ run self [GetBooks filters; GetBooks filters]
     = ([Listed (get_books self filters); Listed (get_books self filters)], self).
Proof.
  split; [|reflexivity].
  unfold query_sequence.
  by rewrite apply_sorting_stable, apply_filters_selected, filter_filter.
Qed.



(** ** The dict *)

Section DictFacts.
Context {V : Type}.
Implicit Types (d : PyDict.t V) (k : Z) (v : V).

Lemma get_set_eq d k v : PyDict.get k (PyDict.set k v d) = Some v.
Proof.
  induction d as [|[k' v'] d IH]; simpl; [by rewrite Z.eqb_refl|].
  destruct (Z.eqb_spec k k') as [->|Hne]; simpl.
  - by rewrite Z.eqb_refl.
  - by destruct (Z.eqb_spec k k').
Qed.

Lemma get_set_ne d k k' v : k <> k' -> PyDict.get k' (PyDict.set k v d) = PyDict.get k' d.
Proof.
  intros Hne. induction d as [|[k0 v0] d IH]; simpl.
  - by destruct (Z.eqb_spec k' k) as [->|_].
  - destruct (Z.eqb_spec k k0) as [->|Hk]; simpl.
    + destruct (Z.eqb_spec k' k0) as [->|_]; done.
    + by rewrite IH.
Qed.

Lemma get_del_eq d k : PyDict.get k (PyDict.del k d) = None.
Proof.
  induction d as [|[k' v'] d IH]; simpl; [done|].
  destruct (Z.eqb_spec k k') as [->|Hne]; simpl; [done|].
  by destruct (Z.eqb_spec k k').
Qed.

Lemma get_del_ne d k k' : k <> k' -> PyDict.get k' (PyDict.del k d) = PyDict.get k' d.
Proof.
  intros Hne. induction d as [|[k0 v0] d IH]; simpl; [done|].
  destruct (Z.eqb_spec k k0) as [->|Hk]; simpl.
  - by destruct (Z.eqb_spec k' k0) as [->|_].
  - by rewrite IH.
Qed.

Lemma get_None_not_key d k : PyDict.get k d = None <-> k ∉ PyDict.keys d.
Proof.
  induction d as [|[k' v'] d IH]; simpl.
  - split; [intros _; apply not_elem_of_nil | done].
  - rewrite not_elem_of_cons. destruct (Z.eqb_spec k k') as [->|Hne]; simpl.
    + split; [done | by intros [? _]].
    + rewrite IH. tauto.
Qed.

(** Assigning to a new key appends the entry. *)
Lemma set_fresh d k v : PyDict.get k d = None -> PyDict.set k v d = d ++ [(k, v)].
Proof.
  induction d as [|[k' v'] d IH]; simpl; [done|].
  destruct (Z.eqb_spec k k'); [done|]. intros H. by rewrite IH.
Qed.

Lemma keys_set d k v :
  PyDict.keys (PyDict.set k v d)
  = if PyDict.mem k d then PyDict.keys d else PyDict.keys d ++ [k].
Proof.
  unfold PyDict.mem. induction d as [|[k' v'] d IH]; simpl; [done|].
  destruct (Z.eqb_spec k k') as [->|Hne]; simpl; [done|].
  rewrite IH. by destruct (PyDict.get k d).
Qed.

Lemma keys_del d k : PyDict.keys (PyDict.del k d) ⊆ PyDict.keys d.
Proof.
  induction d as [|[k' v'] d IH]; simpl; [done|].
  destruct (Z.eqb_spec k k'); simpl.
  - intros x Hx. right. by apply IH.
  - intros x [->|Hx]%elem_of_cons; [left | right; by apply IH].
Qed.

Lemma wf_set d k v : PyDict.wf d -> PyDict.wf (PyDict.set k v d).
Proof.
  unfold PyDict.wf. intros Hd. rewrite keys_set. unfold PyDict.mem.
  destruct (PyDict.get k d) eqn:Hk; [done|].
  apply NoDup_app. split_and!; [done | | apply NoDup_singleton].
  intros x Hx ->%list_elem_of_singleton. by apply get_None_not_key in Hk.
Qed.

Lemma wf_del d k : PyDict.wf d -> PyDict.wf (PyDict.del k d).
Proof.
  unfold PyDict.wf. induction d as [|[k' v'] d IH]; simpl; [done|].
  intros [Hk Hd]%NoDup_cons. destruct (Z.eqb_spec k k'); simpl; [by apply IH|].
  apply NoDup_cons. split; [|by apply IH].
  intros Hin. by apply Hk, (keys_del d k).
Qed.

Lemma del_not_key d k : k ∉ PyDict.keys d -> PyDict.del k d = d.
Proof.
  induction d as [|[k' v'] d IH]; simpl; [done|].
  intros [Hne Hd]%not_elem_of_cons.
  destruct (Z.eqb_spec k k'); [done|]. simpl. by rewrite (IH Hd).
Qed.

(** On a dict, [del] takes out the one entry of the key and keeps the
    others in place. *)
Lemma del_split d k v :
  PyDict.wf d -> PyDict.get k d = Some v ->
  exists d1 d2, d = d1 ++ (k, v) :: d2 /\ PyDict.del k d = d1 ++ d2.
Proof.
  unfold PyDict.wf. induction d as [|[k' v'] d IH]; simpl; [done|].
  intros [Hk Hd]%NoDup_cons. destruct (Z.eqb_spec k k') as [->|Hne]; simpl.
  - intros [= ->]. exists [], d. split; [done|]. by apply del_not_key.
  - intros Hget. destruct (IH Hd Hget) as (d1 & d2 & -> & Hdel).
    exists ((k', v') :: d1), d2. split; [done|].
    unfold PyDict.del in *. simpl.
    destruct (Z.eqb_spec k k') as [?|_]; [done|]. simpl. by rewrite Hdel.
Qed.

End DictFacts.

(** ** The record store *)

(** *** Invariants of the store *)

Lemma ids_below_counter_new : ids_below_counter new_repository.
Proof. constructor. Qed.

Lemma ids_below_counter_load_one self book :
  ids_below_counter self -> ids_below_counter (load_one self book).
Proof.
  unfold ids_below_counter, load_one. simpl. intros H.
  rewrite keys_set. destruct (PyDict.mem _ _).
  - eapply Forall_impl; [exact H|]. simpl. lia.
  - apply Forall_app. split.
    + eapply Forall_impl; [exact H|]. simpl. lia.
    + constructor; [lia | constructor].
Qed.

Lemma ids_below_counter_load self books :
  ids_below_counter self -> ids_below_counter (load_initial_books self books).
Proof.
  unfold load_initial_books. revert self.
  induction books as [|b books IH]; intros self H; simpl; [done|].
  by apply IH, ids_below_counter_load_one.
Qed.

Lemma ids_below_counter_create self book_data :
  ids_below_counter self -> ids_below_counter (create_book self book_data).2.
Proof.
  unfold ids_below_counter, create_book. simpl. intros H.
  rewrite keys_set. destruct (PyDict.mem _ _).
  - eapply Forall_impl; [exact H|]. simpl. lia.
  - apply Forall_app. split.
    + eapply Forall_impl; [exact H|]. simpl. lia.
    + constructor; [lia | constructor].
Qed.

Lemma ids_below_counter_delete self book_id :
  ids_below_counter self -> ids_below_counter (delete_book self book_id).2.
Proof.
  unfold ids_below_counter, delete_book. intros H.
  destruct (PyDict.mem _ _); simpl; [|done].
  rewrite Forall_forall in H |- *. intros k Hk. by apply H, (keys_del _ book_id).
Qed.

Lemma ids_below_counter_step self c :
  ids_below_counter self -> ids_below_counter (step self c).2.
Proof.
  intros H. destruct c as [d|i|i|f|]; simpl; try done.
  - by apply (ids_below_counter_create self d).
  - pose proof (ids_below_counter_delete self i H) as H'.
    by destruct (delete_book self i).
Qed.

(** Every state reached from a fresh or freshly loaded repository keeps
    its keys below the counter. *)
Lemma ids_below_counter_run self cs :
  ids_below_counter self -> ids_below_counter (run self cs).2.
Proof.
  revert self. induction cs as [|c cs IH]; intros self H; simpl; [done|].
  pose proof (ids_below_counter_step self c H) as H1.
  destruct (step self c) as [r self1]. simpl in H1.
  specialize (IH self1 H1). by destruct (run self1 cs).
Qed.

(** The store stays a dict: its keys are pairwise distinct. *)
Lemma books_wf_step self c : PyDict.wf (_books self) -> PyDict.wf (_books (step self c).2).
Proof.
  intros H. destruct c as [d|i|i|f|]; simpl; try done.
  - by apply wf_set.
  - unfold delete_book. destruct (PyDict.mem i (_books self)); simpl; [|done].
    by apply wf_del.
Qed.

Lemma books_wf_load self books :
  PyDict.wf (_books self) -> PyDict.wf (_books (load_initial_books self books)).
Proof.
  unfold load_initial_books. revert self.
  induction books as [|b books IH]; intros self H; simpl; [done|].
  apply IH. simpl. by apply wf_set.
Qed.

Lemma counter_is_fresh self :
  ids_below_counter self -> PyDict.get (_next_id self) (_books self) = None.
Proof.
  unfold ids_below_counter. intros H. apply get_None_not_key.
  intros Hin. rewrite Forall_forall in H. specialize (H _ Hin). lia.
Qed.

(** *** delete *)

(** C7: [delete_book] returns true exactly when a record with the id is
    present; afterwards no record has that id, every other id looks up
    as before, and the id counter is unchanged; when it returns false the
    store is unchanged.  It is a total function: no fault is raised. *)
Theorem delete_book_contract (self : InMemoryBookRepository) (book_id : Z) :
  let ok := (delete_book self book_id).1 in
  let self' := (delete_book self book_id).2 in
  (ok = true <-> is_Some (get_book self book_id))
  /\ get_book self' book_id = None
  /\ (forall other, other <> book_id -> get_book self' other = get_book self other)
  /\ _next_id self' = _next_id self
  /\ (ok = false -> self' = self).
Proof.
  unfold delete_book, get_book, PyDict.mem.
  destruct (PyDict.get book_id (_books self)) eqn:Hget; simpl.
  - split_and!; try done.
    + apply get_del_eq.
    + intros other Hne. by apply get_del_ne.
  - by split_and!.
Qed.

(** *** create and get *)

(** C10: in a store whose keys lie below its counter (every reachable
    store), [create_book] returns the record built from the input under
    the counter's value, with absent tags replaced by the empty list;
    [get_book] on the returned id gives exactly that record; every record
    already stored is still stored unchanged, and the new record comes
    last in the snapshot. *)
Theorem create_book_then_get (self : InMemoryBookRepository) (book_data : BookCreate) :
  ids_below_counter self ->
  let book := (create_book self book_data).1 in
  let self' := (create_book self book_data).2 in
  book = {| id := _next_id self;
            title := bc_title book_data;
            author := bc_author book_data;
            year := bc_year book_data;
            tags := Some (default [] (bc_tags book_data)) |}
  /\ get_book self' (id book) = Some book
  /\ (forall i b, get_book self i = Some b -> get_book self' i = Some b)
  /\ PyDict.values (_books self') = PyDict.values (_books self) ++ [book]
  /\ _next_id self' = id book + 1.
Proof.
  intros Hinv. pose proof (counter_is_fresh self Hinv) as Hfresh.
  unfold create_book, get_book. simpl. split_and!.
  - by destruct (bc_tags book_data) as [[|]|].
  - apply get_set_eq.
  - intros i b Hi. rewrite get_set_ne; [done|]. congruence.
  - rewrite set_fresh by done. unfold PyDict.values. by rewrite map_app.
  - done.
Qed.

(** *** stats *)

Lemma two_elements_length {X} (l : list X) (a b : X) :
  a ∈ l -> b ∈ l -> a <> b -> (2 <= length l)%nat.
Proof.
  destruct l as [|x [|y l]]; simpl; intros Ha Hb Hne; [| |lia].
  - by apply elem_of_nil in Ha.
  - apply list_elem_of_singleton in Ha, Hb. congruence.
Qed.

(** C6: [get_stats] counts the records of the store and the distinct
    author strings: [unique_authors] is the length of a duplicate-free
    list holding exactly the [author] fields that occur, compared as they
    are, without stripping or lowercasing; two stored authors that differ
    as strings count as two, whatever their normal forms. *)
Theorem get_stats_contract (self : InMemoryBookRepository) :
  let stats := get_stats self in
  total_books stats = Z.of_nat (length (PyDict.values (_books self)))
  /\ (exists authors : list string,
        NoDup authors
        /\ (forall a, a ∈ authors <->
                      exists book, book ∈ PyDict.values (_books self) /\ author book = a)
        /\ unique_authors stats = Z.of_nat (length authors))
  /\ (forall b1 b2,
        b1 ∈ PyDict.values (_books self) -> b2 ∈ PyDict.values (_books self) ->
        author b1 <> author b2 -> 2 <= unique_authors stats).
Proof.
  set (authors := elements (list_to_set (C := gset string)
                    (map author (PyDict.values (_books self))))).
  assert (forall a, a ∈ authors <->
            exists book, book ∈ PyDict.values (_books self) /\ author book = a)
    as Hauthors.
  { intros a. subst authors. rewrite elem_of_elements, elem_of_list_to_set.
    change (map author ?l) with (author <$> l).
    rewrite list_elem_of_fmap. split.
    - intros (b & -> & Hb). by exists b.
    - intros (b & Hb & <-). by exists b. }
  simpl. split_and!.
  - unfold PyDict.len, PyDict.values. by rewrite length_map.
  - exists authors. split_and!; [apply NoDup_elements | done | reflexivity].
  - intros b1 b2 H1 H2 Hne.
    change (2 <= Z.of_nat (length authors)).
    assert (2 <= length authors)%nat; [|lia].
    apply (two_elements_length authors (author b1) (author b2)); [| |done];
      apply Hauthors; eauto.
Qed.

(** *** id generation *)

Lemma load_counter self books :
  _next_id (load_initial_books self books)
  = fold_left Z.max (map (fun b => id b + 1) books) (_next_id self).
Proof.
  unfold load_initial_books. revert self.
  induction books as [|b books IH]; intros self; simpl; [done|].
  by rewrite IH.
Qed.

Lemma fold_max_shift (l : list Z) (a : Z) :
  fold_left Z.max (map (fun i => i + 1) l) (a + 1) = fold_left Z.max l a + 1.
Proof.
  revert a. induction l as [|x l IH]; intros a; simpl; [done|].
  replace (Z.max (a + 1) (x + 1)) with (Z.max a x + 1) by lia. apply IH.
Qed.

Lemma fold_max_bounds (l : list Z) (a : Z) :
  a <= fold_left Z.max l a /\ Forall (fun x => x <= fold_left Z.max l a) l.
Proof.
  revert a. induction l as [|x l IH]; intros a; simpl; [by split|].
  destruct (IH (Z.max a x)) as [Ha Hl]. split; [lia|].
  constructor; [lia | done].
Qed.

Lemma fold_max_absorb (l : list Z) (c a : Z) :
  fold_left Z.max l (Z.max c a) = Z.max c (fold_left Z.max l a).
Proof.
  revert a. induction l as [|x l IH]; intros a; simpl; [done|].
  by rewrite <- Z.max_assoc, IH.
Qed.

(** The counter after loading into a fresh repository: one past the
    largest loaded id, and never below 1. *)
Lemma loaded_counter books :
  _next_id (load_initial_books new_repository books)
  = match max_of (map id books) with
    | Some m => Z.max 1 (m + 1)
    | None => 1
    end.
Proof.
  rewrite load_counter. destruct books as [|b books]; simpl; [done|].
  rewrite fold_max_absorb. f_equal.
  rewrite <- fold_max_shift. f_equal. by rewrite List.map_map.
Qed.

Lemma loaded_ids_below_counter self books b :
  b ∈ books -> id b < _next_id (load_initial_books self books).
Proof.
  intros Hb. rewrite load_counter.
  destruct (fold_max_bounds (map (fun b => id b + 1) books) (_next_id self)) as [_ H].
  rewrite Forall_forall in H.
  assert (id b + 1 ∈ map (fun b => id b + 1) books) as Hin.
  { change (map ?f ?l) with (f <$> l). apply list_elem_of_fmap. by exists b. }
  specialize (H _ Hin). lia.
Qed.

Lemma max_of_bounds (l : list Z) (m : Z) :
  max_of l = Some m -> m ∈ l /\ Forall (fun x => x <= m) l.
Proof.
  destruct l as [|x l]; simpl; [done|]. intros [= <-].
  destruct (fold_max_bounds l x) as [Hx Hl]. split; [|by constructor].
  clear Hx Hl. revert x. induction l as [|y l IH]; intros x; simpl; [left|].
  destruct (Z.max_spec x y) as [[_ ->]|[_ ->]].
  - right. apply IH.
  - pose proof (IH x) as Hin.
    apply elem_of_cons in Hin as [->|Hin]; [left | right; by right].
Qed.

Lemma run_cons self c cs :
  run self (c :: cs)
  = ((step self c).1 :: (run (step self c).2 cs).1, (run (step self c).2 cs).2).
Proof.
  cbn [run]. destruct (step self c) as [r s1]. cbn [fst snd].
  by destruct (run s1 cs).
Qed.

Lemma step_counter self c :
  match c with
  | CreateBook _ =>
      created_ids [(step self c).1] = [_next_id self]
      /\ _next_id (step self c).2 = _next_id self + 1
  | _ =>
      created_ids [(step self c).1] = []
      /\ _next_id (step self c).2 = _next_id self
  end.
Proof.
  destruct c as [d|i|i|f|]; simpl; try done.
  unfold delete_book. by destruct (PyDict.mem i (_books self)).
Qed.

Lemma created_ids_cons r rs : created_ids (r :: rs) = created_ids [r] ++ created_ids rs.
Proof. by destruct r. Qed.

(** The ids handed out during a run count up from the counter, one by
    one, whatever other calls come in between. *)
Lemma run_created_ids cs self :
  created_ids (run self cs).1
  = seqZ (_next_id self) (Z.of_nat (length (created_ids (run self cs).1))).
Proof.
  revert self. induction cs as [|c cs IH]; intros self; [done|].
  rewrite run_cons. cbn [fst]. rewrite created_ids_cons.
  specialize (IH (step self c).2). pose proof (step_counter self c) as Hc.
  destruct c; destruct Hc as [-> Hn]; rewrite Hn in IH; cbn [app length];
    try exact IH.
  rewrite Nat2Z.inj_succ, seqZ_cons by lia. f_equal.
  rewrite IH at 1. f_equal; lia.
Qed.

(** C4: start from a fresh repository, load at most once (records with
    positive ids; loading nothing is the same as not loading), then run
    any sequence of calls, creates and deletes in any interleaving.  The
    ids returned by [create_book] are consecutive integers that start at
    1, or at the largest loaded id plus one; so each is strictly greater
    than every id created before it and than every loaded id, and a
    delete never makes an id come back. *)
Theorem created_ids_consecutive_and_fresh
    (books : list BookResponse) (cs : list call) :
  Forall (fun b => 1 <= id b) books ->
  let self := load_initial_books new_repository books in
  let ids := created_ids (run self cs).1 in
  let first := match max_of (map id books) with Some m => m + 1 | None => 1 end in
  ids = seqZ first (Z.of_nat (length ids))
  /\ (forall (i j : nat) (a b : Z),
        (i < j)%nat -> ids !! i = Some a -> ids !! j = Some b -> a < b)
  /\ (forall (a : Z) (b : BookResponse), a ∈ ids -> b ∈ books -> id b < a).
Proof.
  intros Hpos self ids first.
  assert (first = _next_id self) as Hfirst.
  { subst first self. rewrite loaded_counter.
    destruct (max_of (map id books)) as [m|] eqn:Hm; [|done].
    apply max_of_bounds in Hm as [Hin _].
    change (map id books) with (id <$> books) in Hin.
    apply list_elem_of_fmap in Hin as (b & -> & Hb).
    rewrite Forall_forall in Hpos. specialize (Hpos b Hb). lia. }
  assert (ids = seqZ first (Z.of_nat (length ids))) as Hseq.
  { rewrite Hfirst. apply run_created_ids. }
  split_and!; [done | |].
  - intros i j a b Hij Ha Hb. rewrite Hseq in Ha, Hb.
    apply lookup_seqZ in Ha as [-> _]. apply lookup_seqZ in Hb as [-> _]. lia.
  - intros a b Ha Hb. rewrite Hseq in Ha. apply elem_of_seqZ in Ha.
    pose proof (loaded_ids_below_counter new_repository books b Hb) as Hlt.
    fold self in Hlt. lia.
Qed.

(** ** Instances on concrete data *)


Lemma pagination_complete_witness :
  1 <= 3
  /\ exists rs : list (PaginatedResponse Z),
       Forall2 (fun p r => paginate [1; 2; 3; 4; 5; 6; 7; 8; 9; 10] p 3 = Some r)
               [1; 2; 3; 4] rs
       /\ concat (items <$> rs) = [1; 2; 3; 4; 5; 6; 7; 8; 9; 10].
Proof.
  split; [lia|].
  exact (pagination_complete [1; 2; 3; 4; 5; 6; 7; 8; 9; 10] 3 ltac:(lia)).
Defined.

Lemma paginate_contract_witness :
  1 <= 5 /\ 1 <= 3
  /\ exists r, paginate [1; 2; 3; 4; 5; 6; 7; 8; 9; 10] 5 3 = Some r
               /\ total r = 10 /\ items r = [] /\ has_next r = false
               /\ has_prev r = true.
Proof.
  split; [lia|]. split; [lia|].
  destruct (paginate_contract [1; 2; 3; 4; 5; 6; 7; 8; 9; 10] 5 3 ltac:(lia) ltac:(lia))
    as (r & Hr & Ht & Hi & Hn & Hp & _ & _ & Hb).
  assert (page_count (Z.of_nat (length [1; 2; 3; 4; 5; 6; 7; 8; 9; 10])) 3 < 5)
    as Hlast by (vm_compute; reflexivity).
  destruct (Hb Hlast) as [Hempty Hnext].
  exists r. rewrite Hp. by split_and!.
Defined.

Lemma created_ids_consecutive_and_fresh_witness :
  let d := {| bc_title := "New Book"; bc_author := "New Author";
              bc_year := 2025; bc_tags := None |} in
  let loaded := [Sample.mk 5 "Initial Book 1" "Author 1" 2023;
                 Sample.mk 10 "Initial Book 2" "Author 2" 2024] in
  Forall (fun b => 1 <= id b) loaded
  /\ created_ids
       (run (load_initial_books new_repository loaded)
            [CreateBook d; DeleteBook 11; CreateBook d; DeleteBook 5; CreateBook d]).1
     = [11; 12; 13].
Proof.
  intros d loaded.
  assert (Forall (fun b => 1 <= id b) loaded) as Hpos.
  { repeat constructor; simpl; lia. }
  split; [exact Hpos|].
  exact (proj1 (created_ids_consecutive_and_fresh loaded
                  [CreateBook d; DeleteBook 11; CreateBook d; DeleteBook 5; CreateBook d]
                  Hpos)).
Defined.



Lemma create_book_then_get_witness :
  let d := {| bc_title := "Refactoring"; bc_author := "Martin Fowler";
              bc_year := 1999; bc_tags := None |} in
  ids_below_counter Sample.shelf
  /\ get_book (create_book Sample.shelf d).2 4
     = Some {| id := 4; title := "Refactoring"; author := "Martin Fowler";
               year := 1999; tags := Some [] |}.
Proof.
  intros d.
  assert (ids_below_counter Sample.shelf) as Hinv.
  { repeat constructor; simpl; lia. }
  split; [exact Hinv|].
  exact (proj1 (proj2 (create_book_then_get Sample.shelf d Hinv))).
Defined.

(** * Further properties of the code *)

(** ** More about [PaginationService.paginate] *)

Section PaginatorMore.
Context {T : Type}.
Implicit Types (l : list T) (page limit : Z) (r : PaginatedResponse T).

(** [paginate] ends in a validation error exactly when the page or the
    limit is below 1; the length of the sequence and the size of the page
    number never cause one. *)
Theorem paginate_fails_iff l page limit :
  paginate l page limit = None <-> page < 1 \/ limit < 1.
Proof.
  unfold paginate, PaginatedResponse_new.
  destruct (Z.leb_spec 0 (Z.of_nat (length l))); [|lia].
  destruct (Z.leb_spec 1 page), (Z.leb_spec 1 limit); simpl;
    (split; [intros ? | intros [?|?]]); try done; try lia; auto.
Qed.

Lemma paginate_Some_inv l page limit r :
  paginate l page limit = Some r ->
  1 <= page /\ 1 <= limit
  /\ r = {| items := take (Z.to_nat limit) (drop (Z.to_nat ((page - 1) * limit)) l);
            total := Z.of_nat (length l);
            pr_page := page; pr_limit := limit;
            has_next := page * limit <? Z.of_nat (length l);
            has_prev := 1 <? page |}.
Proof.
  intros Hr.
  assert (1 <= page /\ 1 <= limit) as [Hp Hl].
  { unfold paginate, PaginatedResponse_new in Hr.
    destruct (Z.leb_spec 0 (Z.of_nat (length l))),
             (Z.leb_spec 1 page), (Z.leb_spec 1 limit); simpl in Hr; try done. }
  rewrite paginate_ok in Hr by done. by injection Hr as <-.
Qed.

(** A page holds [limit] items, or what is left of the sequence from its
    start on, or nothing; never more than [limit]. *)
Theorem page_length l page limit r :
  paginate l page limit = Some r ->
  Z.of_nat (length (items r))
  = Z.max 0 (Z.min limit (Z.of_nat (length l) - (page - 1) * limit)).
Proof.
  intros (Hp & Hl & ->)%paginate_Some_inv. simpl.
  rewrite length_take, length_drop. nia.
Qed.

(** The [j]-th item of page [page] is the item of the sequence at
    position [(page - 1) * limit + j]; a page has no item at [limit] or
    beyond. *)
Theorem page_item_position l page limit r (j : nat) :
  paginate l page limit = Some r ->
  items r !! j
  = if decide (Z.of_nat j < limit)
    then l !! (Z.to_nat ((page - 1) * limit) + j)%nat
    else None.
Proof.
  intros (Hp & Hl & ->)%paginate_Some_inv. simpl.
  case_decide.
  - rewrite lookup_take_lt by lia. apply lookup_drop.
  - apply lookup_take_ge. lia.
Qed.

(** [has_next] is true exactly when the next page has an item. *)
Theorem has_next_iff_next_page_nonempty l page limit r :
  paginate l page limit = Some r ->
  (has_next r = true <->
   exists r', paginate l (page + 1) limit = Some r' /\ items r' <> []).
Proof.
  intros (Hp & Hl & ->)%paginate_Some_inv. simpl.
  rewrite Z.ltb_lt, paginate_ok by lia.
  replace (page + 1 - 1) with page by lia.
  split.
  - intros Hlt. eexists. split; [done|]. simpl. intros Hnil.
    apply (f_equal length) in Hnil.
    rewrite length_take, length_drop in Hnil. simpl in Hnil. nia.
  - intros (r' & [= <-] & Hne). simpl in Hne.
    destruct (Z.lt_ge_cases (page * limit) (Z.of_nat (length l))) as [?|Hge]; [done|].
    destruct Hne. rewrite drop_ge by lia. apply take_nil_any.
Qed.

(** [has_prev] is true exactly when the previous page number is one that
    [paginate] accepts. *)
Lemma has_prev_iff_previous_page l page limit r :
  paginate l page limit = Some r ->
  (has_prev r = true <-> is_Some (paginate l (page - 1) limit)).
Proof.
  intros (Hp & Hl & ->)%paginate_Some_inv. simpl. rewrite Z.ltb_lt. split.
  - intros Hlt. rewrite paginate_ok by lia. eauto.
  - intros [r' Hr']. apply paginate_Some_inv in Hr'. lia.
Qed.

End PaginatorMore.

(** ** More about [normalize_string] *)

Lemma is_space_lower_char (c : ascii) :
  PyStr.is_space (PyStr.lower_char c) = PyStr.is_space c.
Proof. destruct c as [[] [] [] [] [] [] [] []]; reflexivity. Qed.

Lemma lower_char_idem (c : ascii) :
  PyStr.lower_char (PyStr.lower_char c) = PyStr.lower_char c.
Proof. destruct c as [[] [] [] [] [] [] [] []]; reflexivity. Qed.

Lemma lower_idem (s : string) : PyStr.lower (PyStr.lower s) = PyStr.lower s.
Proof.
  induction s as [|c s IH]; simpl; [done|]. by rewrite lower_char_idem, IH.
Qed.

Lemma lower_empty (s : string) : PyStr.lower s = "" -> s = "".
Proof. by destruct s. Qed.

Lemma lstrip_lower (s : string) :
  PyStr.lstrip (PyStr.lower s) = PyStr.lower (PyStr.lstrip s).
Proof.
  induction s as [|c s IH]; simpl; [done|].
  rewrite is_space_lower_char. by destruct (PyStr.is_space c).
Qed.

Lemma rstrip_lower (s : string) :
  PyStr.rstrip (PyStr.lower s) = PyStr.lower (PyStr.rstrip s).
Proof.
  induction s as [|c s IH]; simpl; [done|].
  rewrite IH, is_space_lower_char.
  destruct (PyStr.rstrip s); simpl; [by destruct (PyStr.is_space c) | done].
Qed.

Lemma strip_lower (s : string) :
  PyStr.strip (PyStr.lower s) = PyStr.lower (PyStr.strip s).
Proof. unfold PyStr.strip. by rewrite lstrip_lower, rstrip_lower. Qed.

Lemma rstrip_cons_nonspace (c : ascii) (s : string) :
  PyStr.is_space c = false -> PyStr.rstrip (String c s) = String c (PyStr.rstrip s).
Proof. intros Hc. simpl. rewrite Hc. by destruct (PyStr.rstrip s). Qed.

Lemma rstrip_cons (c : ascii) (s : string) :
  PyStr.rstrip (String c s)
  = match PyStr.rstrip s with
    | EmptyString => if PyStr.is_space c then EmptyString else String c EmptyString
    | r => String c r
    end.
Proof. reflexivity. Qed.

Lemma rstrip_idem (s : string) : PyStr.rstrip (PyStr.rstrip s) = PyStr.rstrip s.
Proof.
  induction s as [|c s IH]; [done|]. rewrite rstrip_cons.
  destruct (PyStr.rstrip s) as [|c' r] eqn:Hr.
  - destruct (PyStr.is_space c) eqn:Hc; [done|]. simpl. by rewrite Hc.
  - by rewrite rstrip_cons, IH.
Qed.

Lemma lstrip_head (s : string) :
  PyStr.lstrip s = ""
  \/ exists c s', PyStr.lstrip s = String c s' /\ PyStr.is_space c = false.
Proof.
  induction s as [|c s IH]; simpl; [by left|].
  destruct (PyStr.is_space c) eqn:Hc; [done|]. right. eauto.
Qed.

Lemma strip_idem (s : string) : PyStr.strip (PyStr.strip s) = PyStr.strip s.
Proof.
  unfold PyStr.strip.
  destruct (lstrip_head s) as [-> | (c & s' & -> & Hc)]; [done|].
  rewrite (rstrip_cons_nonspace c s' Hc). cbn [PyStr.lstrip]. rewrite Hc.
  rewrite (rstrip_cons_nonspace c _ Hc). by rewrite rstrip_idem.
Qed.

Lemma rstrip_empty_all_space (s : string) :
  PyStr.rstrip s = "" -> PyStr.all_space s = true.
Proof.
  unfold PyStr.all_space. induction s as [|c s IH]; simpl; [done|].
  destruct (PyStr.rstrip s); [|done].
  destruct (PyStr.is_space c); [|done]. intros _. by apply IH.
Qed.

Lemma lstrip_all_space_inv (s : string) :
  PyStr.all_space (PyStr.lstrip s) = true -> PyStr.all_space s = true.
Proof.
  unfold PyStr.all_space. induction s as [|c s IH]; simpl; [done|].
  destruct (PyStr.is_space c) eqn:Hc; simpl; [done|]. by rewrite Hc.
Qed.

(** Normalizing twice is normalizing once: a normalized string is its own
    normal form. *)
Theorem normalize_string_idempotent (s : string) :
  normalize_string (normalize_string s) = normalize_string s.
Proof.
  unfold normalize_string at 2 3.
  destruct (PyStr.truthy s); [|done].
  unfold normalize_string.
  destruct (PyStr.truthy (PyStr.lower (PyStr.strip s))) eqn:Ht.
  - by rewrite strip_lower, lower_idem, strip_idem.
  - by apply truthy_false_empty in Ht as ->.
Qed.

(** The normal form is empty exactly for the strings made of whitespace
    only (the empty string among them). *)
Theorem normalize_string_empty_iff (s : string) :
  normalize_string s = "" <-> PyStr.all_space s = true.
Proof.
  unfold normalize_string. split.
  - destruct (PyStr.truthy s) eqn:Ht.
    + intros H%lower_empty. unfold PyStr.strip in H.
      by apply lstrip_all_space_inv, rstrip_empty_all_space.
    + by apply truthy_false_empty in Ht as ->.
  - intros H. rewrite (strip_all_space s H). by destruct (PyStr.truthy s).
Qed.

(** ** More about [get_books] *)

Lemma apply_sorting_Permutation (filters : BookFilters) (l : list BookResponse) :
  Permutation (apply_sorting filters l) l.
Proof.
  unfold apply_sorting. destruct (truthy_str (sort_by filters)); [|done].
  repeat case_bool_decide; try done; apply sort_Permutation.
Qed.

Lemma query_sequence_Permutation (self : InMemoryBookRepository) (filters : BookFilters) :
  Permutation (query_sequence self filters)
              (List.filter (selected filters) (PyDict.values (_books self))).
Proof.
  unfold query_sequence. by rewrite apply_sorting_Permutation, apply_filters_selected.
Qed.

Lemma get_books_Some_inv (self : InMemoryBookRepository) (filters : BookFilters) r :
  get_books self filters = Some r ->
  1 <= page filters /\ 1 <= limit filters
  /\ total r = Z.of_nat (length (query_sequence self filters))
  /\ items r = take (Z.to_nat (limit filters))
                 (drop (Z.to_nat ((page filters - 1) * limit filters))
                       (query_sequence self filters)).
Proof.
  unfold get_books. by intros (? & ? & ->)%paginate_Some_inv.
Qed.

(** [total] is the number of stored records that pass every filter of
    the specification; the sort fields, the page and the limit do not
    change it. *)
Theorem query_total_is_match_count
    (self : InMemoryBookRepository) (filters : BookFilters) r :
  get_books self filters = Some r ->
  total r
  = Z.of_nat (length (List.filter (selected filters) (PyDict.values (_books self)))).
Proof.
  intros (_ & _ & -> & _)%get_books_Some_inv.
  by rewrite (Permutation_length (query_sequence_Permutation self filters)).
Qed.

(** Every record on a returned page is a record of the store and passes
    every filter of the specification. *)
Theorem query_items_stored_and_selected
    (self : InMemoryBookRepository) (filters : BookFilters) r (book : BookResponse) :
  get_books self filters = Some r ->
  book ∈ items r ->
  book ∈ PyDict.values (_books self) /\ selected filters book = true.
Proof.
  intros (_ & _ & _ & ->)%get_books_Some_inv Hin.
  apply subseteq_take, subseteq_drop in Hin.
  rewrite (query_sequence_Permutation self filters) in Hin.
  apply list_elem_of_In, filter_In in Hin as [Hin Hsel].
  split; [by apply list_elem_of_In | done].
Qed.

(** A query that sorts neither by year nor by author is the paginated
    selection of the store's records in the order the store holds them. *)
Theorem unsorted_query_keeps_store_order
    (self : InMemoryBookRepository) (filters : BookFilters) :
  sort_by filters <> Some "year" -> sort_by filters <> Some "author" ->
  get_books self filters
  = paginate (List.filter (selected filters) (PyDict.values (_books self)))
             (page filters) (limit filters).
Proof.
  intros Hy Ha. unfold get_books, query_sequence, apply_sorting.
  rewrite apply_filters_selected.
  destruct (truthy_str (sort_by filters)); [|done].
  by rewrite !bool_decide_eq_false_2.
Qed.

Lemma StronglySorted_impl {A} (R1 R2 : relation A) (l : list A) :
  (forall x y, R1 x y -> R2 x y) -> StronglySorted R1 l -> StronglySorted R2 l.
Proof.
  intros HR. induction 1 as [|x l Hl IH Hx]; constructor; [done|].
  eapply Forall_impl; [exact Hx | auto].
Qed.

Lemma StronglySorted_drop {A} (R : relation A) (n : nat) (l : list A) :
  StronglySorted R l -> StronglySorted R (drop n l).
Proof.
  intros Hl. revert n. induction Hl as [|x l Hl IH Hx]; intros [|n]; simpl;
    try by constructor. apply IH.
Qed.

Lemma StronglySorted_take {A} (R : relation A) (n : nat) (l : list A) :
  StronglySorted R l -> StronglySorted R (take n l).
Proof.
  intros Hl. revert n. induction Hl as [|x l Hl IH Hx]; intros [|n]; simpl;
    try by constructor. constructor; [apply IH | by apply Forall_take].
Qed.

Lemma string_leb_ltb (a b : string) : String.leb a b = true <-> String.ltb b a = false.
Proof.
  unfold String.leb, String.ltb. rewrite (String.compare_antisym b a).
  destruct (String.compare a b); simpl; split; done.
Qed.

Lemma query_sequence_sorted_by_year (self : InMemoryBookRepository) (filters : BookFilters) :
  sort_by filters = Some "year" ->
  StronglySorted (year_order filters) (query_sequence self filters).
Proof.
  intros Hby. unfold query_sequence, apply_sorting, year_order. rewrite Hby. simpl.
  pose proof (sort_sorted year_key Z.ltb Z_ltb_asym Z_ltb_trans Z_ltb_total
                (bool_decide (sort_order filters = Some "desc"))
                (apply_filters filters (PyDict.values (_books self)))) as Hs.
  destruct (bool_decide (sort_order filters = Some "desc"));
    (eapply StronglySorted_impl; [|exact Hs]);
    unfold flip, PyList.in_order, year_key; intros x y ?%Z.ltb_ge; lia.
Qed.

Lemma query_sequence_sorted_by_author (self : InMemoryBookRepository) (filters : BookFilters) :
  sort_by filters = Some "author" ->
  StronglySorted (author_order filters) (query_sequence self filters).
Proof.
  intros Hby. unfold query_sequence, apply_sorting, author_order. rewrite Hby. simpl.
  pose proof (sort_sorted author_key String.ltb string_ltb_asym string_ltb_trans
                string_ltb_total
                (bool_decide (sort_order filters = Some "desc"))
                (apply_filters filters (PyDict.values (_books self)))) as Hs.
  destruct (bool_decide (sort_order filters = Some "desc"));
    (eapply StronglySorted_impl; [|exact Hs]);
    unfold flip, PyList.in_order; intros x y Hxy; by apply string_leb_ltb.
Qed.

(** With [sort_by = "year"] every returned page is in year order:
    non-decreasing, or non-increasing when [sort_order] is ["desc"]. *)
Theorem page_sorted_by_year
    (self : InMemoryBookRepository) (filters : BookFilters) r :
  sort_by filters = Some "year" ->
  get_books self filters = Some r ->
  StronglySorted (year_order filters) (items r).
Proof.
  intros Hby (_ & _ & _ & ->)%get_books_Some_inv.
  by apply StronglySorted_take, StronglySorted_drop, query_sequence_sorted_by_year.
Qed.

(** With [sort_by = "author"] every returned page is in the order of the
    normalized author strings, compared character by character:
    non-decreasing, or non-increasing when [sort_order] is ["desc"]. *)
Theorem page_sorted_by_author
    (self : InMemoryBookRepository) (filters : BookFilters) r :
  sort_by filters = Some "author" ->
  get_books self filters = Some r ->
  StronglySorted (author_order filters) (items r).
Proof.
  intros Hby (_ & _ & _ & ->)%get_books_Some_inv.
  by apply StronglySorted_take, StronglySorted_drop, query_sequence_sorted_by_author.
Qed.


(** ** More about the record store *)

Lemma keys_are_ids_set (d : PyDict.t BookResponse) (book : BookResponse) :
  Forall (fun kv => id kv.2 = kv.1) d ->
  Forall (fun kv => id kv.2 = kv.1) (PyDict.set (id book) book d).
Proof.
  induction 1 as [|[k v] d Hkv Hd IH]; simpl; [by repeat constructor|].
  destruct (Z.eqb_spec (id book) k); by constructor.
Qed.

Lemma keys_are_ids_load self books :
  keys_are_ids self -> keys_are_ids (load_initial_books self books).
Proof.
  unfold load_initial_books. revert self.
  induction books as [|b books IH]; intros self H; simpl; [done|].
  apply IH. by apply keys_are_ids_set.
Qed.

Lemma keys_are_ids_step self c : keys_are_ids self -> keys_are_ids (step self c).2.
Proof.
  unfold keys_are_ids. intros H. destruct c as [d|i|i|f|]; simpl; try done.
  - by apply (keys_are_ids_set (_books self)
                {| id := _next_id self; title := bc_title d; author := bc_author d;
                   year := bc_year d; tags := Some (tags_or_empty (bc_tags d)) |}).
  - unfold delete_book. destruct (PyDict.mem i (_books self)); simpl; [|done].
    rewrite Forall_forall in H |- *. intros kv Hkv. apply H.
    by apply list_elem_of_In, filter_In in Hkv as [?%list_elem_of_In _].
Qed.

Lemma keys_are_ids_run self cs : keys_are_ids self -> keys_are_ids (run self cs).2.
Proof.
  revert self. induction cs as [|c cs IH]; intros self H; [done|].
  rewrite run_cons. apply IH. by apply keys_are_ids_step.
Qed.

Lemma books_wf_run self cs : PyDict.wf (_books self) -> PyDict.wf (_books (run self cs).2).
Proof.
  revert self. induction cs as [|c cs IH]; intros self H; [done|].
  rewrite run_cons. apply IH. by apply books_wf_step.
Qed.

(** What holds of every reachable store. *)
Lemma reachable_invariants self :
  reachable self ->
  keys_are_ids self /\ PyDict.wf (_books self) /\ ids_below_counter self.
Proof.
  intros (books & cs & ->). split_and!.
  - apply keys_are_ids_run, keys_are_ids_load. constructor.
  - apply books_wf_run, books_wf_load. constructor.
  - apply ids_below_counter_run, ids_below_counter_load, ids_below_counter_new.
Qed.

Lemma reachable_new : reachable new_repository.
Proof. by exists [], []. Qed.

Lemma reachable_sample : reachable Sample.shelf.
Proof. by exists [Sample.clean_code; Sample.clean_arch; Sample.pragmatic], []. Qed.

Lemma get_key_is_id (d : PyDict.t BookResponse) (i : Z) (b : BookResponse) :
  Forall (fun kv => id kv.2 = kv.1) d -> PyDict.get i d = Some b -> id b = i.
Proof.
  induction 1 as [|[k v] d Hkv Hd IH]; simpl; [done|].
  destruct (Z.eqb_spec i k) as [->|_]; [|done]. by intros [= <-].
Qed.

(** In every reachable store, the record [get_book] returns for an id
    carries that id. *)
Theorem get_book_returns_requested_id
    (self : InMemoryBookRepository) (book_id : Z) (book : BookResponse) :
  reachable self ->
  get_book self book_id = Some book ->
  id book = book_id.
Proof.
  intros (Hids & _ & _)%reachable_invariants. by apply get_key_is_id.
Qed.

Lemma get_load_one self b i :
  get_book (load_one self b) i = if id b =? i then Some b else get_book self i.
Proof.
  unfold get_book, load_one. simpl.
  destruct (Z.eqb_spec (id b) i) as [->|Hne]; [apply get_set_eq | by apply get_set_ne].
Qed.

(** After [load_initial_books], an id looks up the last loaded record
    that carries it; an id that no loaded record carries looks up as
    before. *)
Theorem load_then_get
    (self : InMemoryBookRepository) (books : list BookResponse) (book_id : Z) :
  get_book (load_initial_books self books) book_id
  = match last (List.filter (fun b => id b =? book_id) books) with
    | Some b => Some b
    | None => get_book self book_id
    end.
Proof.
  unfold load_initial_books. revert self.
  induction books as [|b books IH]; intros self; simpl; [done|].
  rewrite IH, get_load_one.
  destruct (id b =? book_id); [|done].
  rewrite last_cons. by destruct (last _).
Qed.

Lemma del_app {V} (k : Z) (d1 d2 : PyDict.t V) :
  PyDict.del k (d1 ++ d2) = PyDict.del k d1 ++ PyDict.del k d2.
Proof. apply List.filter_app. Qed.

(** Deleting the record that was just created gives back the records the
    store had, in their order; only the id counter stays advanced, so the
    id is not handed out again. *)
Theorem create_then_delete_restores
    (self : InMemoryBookRepository) (book_data : BookCreate) :
  ids_below_counter self ->
  let book := (create_book self book_data).1 in
  delete_book (create_book self book_data).2 (id book)
  = (true, {| _books := _books self; _next_id := _next_id self + 1 |}).
Proof.
  intros Hinv. pose proof (counter_is_fresh self Hinv) as Hfresh.
  unfold create_book, delete_book, PyDict.mem. simpl.
  rewrite get_set_eq, set_fresh by done.
  rewrite del_app, del_not_key by by apply get_None_not_key.
  simpl. by rewrite Z.eqb_refl, app_nil_r.
Qed.

(** A second delete of the same id finds nothing: it returns false and
    leaves the store as the first delete left it. *)
Theorem delete_twice (self : InMemoryBookRepository) (book_id : Z) :
  delete_book (delete_book self book_id).2 book_id
  = (false, (delete_book self book_id).2).
Proof.
  unfold delete_book at 2 3. unfold PyDict.mem.
  destruct (PyDict.get book_id (_books self)) eqn:Hget; simpl.
  - unfold delete_book, PyDict.mem. simpl. by rewrite get_del_eq.
  - unfold delete_book, PyDict.mem. by rewrite Hget.
Qed.

(** A successful delete takes exactly one record out of the snapshot and
    leaves the others in their order. *)
Theorem delete_removes_one_record
    (self : InMemoryBookRepository) (book_id : Z) (book : BookResponse) :
  reachable self ->
  get_book self book_id = Some book ->
  exists before after : list BookResponse,
    PyDict.values (_books self) = before ++ book :: after
    /\ PyDict.values (_books (delete_book self book_id).2) = before ++ after
    /\ total_books (get_stats (delete_book self book_id).2)
       = total_books (get_stats self) - 1.
Proof.
  intros (_ & Hwf & _)%reachable_invariants Hget. unfold get_book in Hget.
  destruct (del_split _ _ _ Hwf Hget) as (d1 & d2 & Hd & Hdel).
  unfold delete_book, PyDict.mem. rewrite Hget. simpl.
  exists (PyDict.values d1), (PyDict.values d2).
  unfold PyDict.values, PyDict.len. rewrite Hdel, Hd, !map_app, !length_app.
  simpl. split_and!; try done. lia.
Qed.

(** ** More about [get_stats] *)

Lemma size_list_to_set_le (l : list string) :
  (size (list_to_set (C := gset string) l) <= length l)%nat.
Proof.
  induction l as [|x l IH]; [done|].
  rewrite list_to_set_cons, size_union_alt, size_singleton. simpl.
  pose proof (subseteq_size (list_to_set (C := gset string) l ∖ {[x]})
                (list_to_set l) ltac:(set_solver)).
  lia.
Qed.

(** There are never more distinct authors than books, and neither count
    is negative. *)
Theorem unique_authors_at_most_total (self : InMemoryBookRepository) :
  0 <= unique_authors (get_stats self) <= total_books (get_stats self).
Proof.
  unfold get_stats, PyDict.len, PyDict.values. simpl.
  pose proof (size_list_to_set_le (map author (map snd (_books self)))) as H.
  rewrite !length_map in H. lia.
Qed.

(** Creating a book raises [total_books] by one, and raises
    [unique_authors] by one exactly when no stored book has the very same
    author string. *)
Theorem create_updates_stats
    (self : InMemoryBookRepository) (book_data : BookCreate) :
  ids_below_counter self ->
  let self' := (create_book self book_data).2 in
  total_books (get_stats self') = total_books (get_stats self) + 1
  /\ unique_authors (get_stats self')
     = unique_authors (get_stats self)
       + (if decide (bc_author book_data ∈ map author (PyDict.values (_books self)))
          then 0 else 1).
Proof.
  intros Hinv. pose proof (counter_is_fresh self Hinv) as Hfresh.
  unfold create_book, get_stats, PyDict.len, PyDict.values. simpl.
  rewrite set_fresh by done. rewrite !map_app, length_app. simpl. split; [lia|].
  set (l := map author (map snd (_books self))).
  assert (list_to_set (C := gset string) (l ++ [bc_author book_data])
          = list_to_set l ∪ {[bc_author book_data]}) as ->.
  { apply leibniz_equiv, list_to_set_snoc. }
  case_decide as Hin.
  - assert (list_to_set (C := gset string) l ∪ {[bc_author book_data]}
            = list_to_set l) as -> by set_solver.
    lia.
  - rewrite size_union by set_solver. rewrite size_singleton. lia.
Qed.

(** ** The data loader and the startup *)

Lemma _assign_ids_with_id (books : list BookCreate) :
  DataLoader._assign_ids books = map with_id (enumerate books 1).
Proof.
  unfold DataLoader._assign_ids. apply map_ext. by intros [idx book].
Qed.

Lemma enumerate_ids (books : list BookCreate) (start : Z) :
  map id (map with_id (enumerate books start))
  = seqZ start (Z.of_nat (length books)).
Proof.
  revert start. induction books as [|b books IH]; intros start; [done|].
  cbn [enumerate map length]. rewrite Nat2Z.inj_succ, seqZ_cons by lia.
  f_equal. rewrite IH. f_equal; lia.
Qed.

Lemma enumerate_fields (books : list BookCreate) (start : Z) :
  Forall2 (fun book b =>
             title b = bc_title book /\ author b = bc_author book
             /\ year b = bc_year book /\ tags b = bc_tags book)
          books (map with_id (enumerate books start)).
Proof.
  revert start. induction books as [|b books IH]; intros start; simpl;
    constructor; [done | apply IH].
Qed.

(** [_assign_ids] numbers the books 1, 2, 3, ... in the order given and
    copies every other field as it is (absent tags stay absent). *)
Theorem assign_ids_consecutive (books : list BookCreate) :
  map id (DataLoader._assign_ids books) = seqZ 1 (Z.of_nat (length books))
  /\ Forall2 (fun book b =>
                title b = bc_title book /\ author b = bc_author book
                /\ year b = bc_year book /\ tags b = bc_tags book)
             books (DataLoader._assign_ids books).
Proof.
  rewrite _assign_ids_with_id. split; [apply enumerate_ids | apply enumerate_fields].
Qed.

Lemma load_enumerated (self : InMemoryBookRepository) (books : list BookCreate) :
  ids_below_counter self ->
  load_initial_books self (map with_id (enumerate books (_next_id self)))
  = {| _books := _books self
                 ++ map (fun b => (id b, b))
                        (map with_id (enumerate books (_next_id self)));
       _next_id := _next_id self + Z.of_nat (length books) |}.
Proof.
  unfold load_initial_books. revert self.
  induction books as [|b books IH]; intros self Hinv.
  - destruct self. simpl. by rewrite app_nil_r, Z.add_0_r.
  - cbn [enumerate map fold_left].
    pose proof (counter_is_fresh self Hinv) as Hfresh.
    pose proof (ids_below_counter_load_one self (with_id (_next_id self, b)) Hinv)
      as Hinv'.
    assert (load_one self (with_id (_next_id self, b))
            = {| _books := _books self ++ [(_next_id self, with_id (_next_id self, b))];
                 _next_id := _next_id self + 1 |}) as Hone.
    { unfold load_one. simpl. rewrite set_fresh by done. f_equal. lia. }
    rewrite Hone in Hinv' |- *. specialize (IH _ Hinv'). simpl in IH.
    rewrite IH. rewrite <- app_assoc. simpl. f_equal. lia.
Qed.

Lemma get_enumerated (books : list BookCreate) (start : Z) (k : nat) :
  PyDict.get (start + Z.of_nat k)
             (map (fun b => (id b, b)) (map with_id (enumerate books start)))
  = map with_id (enumerate books start) !! k.
Proof.
  revert start k. induction books as [|b books IH]; intros start k; [done|].
  cbn [enumerate map PyDict.get].
  change (id (with_id (start, b))) with start.
  destruct k as [|k].
  - by rewrite Z.add_0_r, Z.eqb_refl.
  - destruct (Z.eqb_spec (start + Z.of_nat (S k)) start) as [?|_]; [lia|].
    replace (start + Z.of_nat (S k)) with ((start + 1) + Z.of_nat k) by lia.
    apply IH.
Qed.

Lemma get_enumerated_below (books : list BookCreate) (start i : Z) :
  i < start ->
  PyDict.get i (map (fun b => (id b, b)) (map with_id (enumerate books start))) = None.
Proof.
  revert start. induction books as [|b books IH]; intros start Hi; [done|].
  cbn [enumerate map PyDict.get].
  change (id (with_id (start, b))) with start.
  destruct (Z.eqb_spec i start); [lia|]. apply IH. lia.
Qed.

Lemma load_assigned_store (books : list BookCreate) :
  load_initial_books new_repository (map with_id (enumerate books 1))
  = {| _books := map (fun b => (id b, b)) (map with_id (enumerate books 1));
       _next_id := 1 + Z.of_nat (length books) |}.
Proof. exact (load_enumerated new_repository books ids_below_counter_new). Qed.

Lemma values_of_entries (l : list BookResponse) :
  PyDict.values (map (fun b => (id b, b)) l) = l.
Proof.
  unfold PyDict.values. induction l as [|x l IH]; simpl; [done|]. by rewrite IH.
Qed.

(** The books the loader numbered, loaded into a fresh repository, are
    the store's snapshot in the same order; the [k]-th of them (from 0)
    is found under id [k + 1], ids below 1 find nothing, and the next
    created book gets the id after the last loaded one. *)
Theorem loader_output_into_repository (books : list BookCreate) :
  let loaded := DataLoader._assign_ids books in
  let self := load_initial_books new_repository loaded in
  PyDict.values (_books self) = loaded
  /\ (forall k : nat, get_book self (Z.of_nat k + 1) = loaded !! k)
  /\ (forall i : Z, i < 1 -> get_book self i = None)
  /\ forall book_data,
       id (create_book self book_data).1 = Z.of_nat (length books) + 1.
Proof.
  intros loaded self. subst loaded self.
  rewrite _assign_ids_with_id, load_assigned_store.
  unfold get_book. simpl. split_and!.
  - apply values_of_entries.
  - intros k. replace (Z.of_nat k + 1) with (1 + Z.of_nat k) by lia.
    apply get_enumerated.
  - intros i Hi. by apply get_enumerated_below.
  - intros _. lia.
Qed.

Section Startup.
Context {Raw : Type} (BookCreateFromJSON_new : Raw -> option BookCreateFromJSON).

Lemma length_omap_le {A B} (f : A -> option B) (l : list A) :
  (length (omap f l) <= length l)%nat.
Proof.
  induction l as [|x l IH]; [done|].
  change (omap f (x :: l))
    with (match f x with Some y => y :: omap f l | None => omap f l end).
  destruct (f x); simpl; lia.
Qed.

Lemma omap_cons {A B} (f : A -> option B) (x : A) (l : list A) :
  omap f (x :: l) = match f x with Some y => y :: omap f l | None => omap f l end.
Proof. reflexivity. Qed.

Lemma map_omap {A B C} (f : A -> option B) (g : B -> C) (l : list A) :
  map g (omap f l) = omap (fun x => g <$> f x) l.
Proof.
  induction l as [|x l IH]; [done|]. rewrite !omap_cons.
  destruct (f x); simpl; by rewrite IH.
Qed.

Lemma omap_ext_all {A B} (f g : A -> option B) (l : list A) :
  (forall x, f x = g x) -> omap f l = omap g l.
Proof.
  intros Hfg. induction l as [|x l IH]; [done|].
  by rewrite !omap_cons, Hfg, IH.
Qed.

Lemma enumerate_length {A} (l : list A) (start : Z) :
  length (enumerate l start) = length l.
Proof.
  revert start. induction l as [|x l IH]; intros start; simpl; [done|].
  by rewrite IH.
Qed.

Lemma enumerate_contents (books : list BookCreate) (start : Z) :
  map (fun b => (title b, author b, year b, tags b))
      (map with_id (enumerate books start))
  = map (fun c => (bc_title c, bc_author c, bc_year c, bc_tags c)) books.
Proof.
  revert start. induction books as [|c books IH]; intros start; simpl; [done|].
  by rewrite IH.
Qed.

(** Entries that fail validation are skipped and use up no id: the
    loader returns one record for each valid entry, in file order, with
    ids 1, 2, 3, ... without gaps; each record has the title, author and
    tags of its entry and the entry's [release_year] as its [year]. *)
Theorem loader_skips_invalid_without_gaps (data : list Raw) :
  exists books,
    DataLoader.load_initial_books BookCreateFromJSON_new (DataLoader.Entries data)
    = Return books
    /\ map id books = seqZ 1 (Z.of_nat (length books))
    /\ map (fun b => (title b, author b, year b, tags b)) books
       = omap (fun e =>
                 (fun j => (j_title j, j_author j, release_year j, j_tags j))
                 <$> BookCreateFromJSON_new e)
              data
    /\ (length books <= length data)%nat.
Proof.
  unfold DataLoader.load_initial_books. simpl. eexists. split; [done|].
  rewrite _assign_ids_with_id, enumerate_ids, enumerate_contents,
    !length_map, !enumerate_length.
  split_and!; [done | | apply length_omap_le].
  unfold DataLoader._validate_and_transform_books.
  rewrite map_omap. apply omap_ext_all. intros e.
  by destruct (BookCreateFromJSON_new e).
Qed.

(** Unless the loader ends in an exception outside [Exception], startup
    puts a repository into the application state, so
    [get_book_repository] finds one.  With a list of entries on disk it
    holds the numbered valid entries; with no file, an unreadable file,
    broken JSON or JSON that is not a list it is the empty repository. *)
Theorem startup_always_has_repository (file : DataLoader.json_file Raw) :
  match file with DataLoader.Unreadable e => is_Exception e = true | _ => True end ->
  exists repository,
    lifespan_startup BookCreateFromJSON_new file
    = Return {| book_repository := Some repository |}
    /\ get_book_repository {| book_repository := Some repository |} = Return repository
    /\ match file with
       | DataLoader.Entries data =>
           PyDict.values (_books repository)
           = DataLoader._assign_ids
               (DataLoader._validate_and_transform_books BookCreateFromJSON_new data)
       | _ => repository = new_repository
       end.
Proof.
  intros Hfile. unfold lifespan_startup, DataLoader.load_initial_books.
  destruct file as [|e|msg| |data]; simpl; try (by eexists).
  - rewrite Hfile. by eexists.
  - eexists. split_and!; [done..|].
    rewrite _assign_ids_with_id, load_assigned_store. apply values_of_entries.
Qed.

End Startup.

(** ** Error translation and the router *)

(** [handle_repository_errors] hands a returned value through untouched
    and turns every [Exception] into an [HTTPException] with status 400,
    404 or 500: 400 exactly for a [ValueError], 404 exactly for a
    [FileNotFoundError].  An [HTTPException] raised inside, whatever its
    status, comes out with status 500. *)
Theorem wrapped_errors_become_http {A} (operation_name : string) (e : PyExc) :
  is_Exception e = true ->
  (forall a : A, handle_repository_errors operation_name (Return a) = Return a)
  /\ exists status detail,
       handle_repository_errors (A := A) operation_name (Raise e)
       = Raise (HTTPException status detail)
       /\ (status = 400 \/ status = 404 \/ status = 500)
       /\ (status = 400 <-> exists msg, e = ValueError msg)
       /\ (status = 404 <-> exists msg, e = FileNotFoundError msg)
       /\ (forall s d, e = HTTPException s d -> status = 500).
Proof.
  intros He. split; [done|].
  destruct e; try done; simpl; eexists _, _; (split; [done|]);
    split_and!; auto; try done;
    try (split; [done | by intros [? ?]]);
    try (split; [eauto | done]).
Qed.

(** One book through the router on the in-memory repository: creating it
    answers with the record under the store's next id; reading that id
    answers with the same record; deleting it succeeds; after that,
    reading and deleting the id both answer 404 "not found", and the
    failed delete leaves the store as it was. *)
Theorem router_lifecycle (self : InMemoryBookRepository) (book_data : BookCreate) :
  let created := router_create_book book_data self in
  let book := (create_book self book_data).1 in
  let not_found :=
    HTTPException 404 ("Book with ID " +:+ pretty (_next_id self) +:+ " not found") in
  created.1 = Return book
  /\ id book = _next_id self
  /\ router_get_book (id book) created.2 = (Return book, created.2)
  /\ let deleted := router_delete_book (id book) created.2 in
     deleted.1
     = Return {| message := "Book with ID " +:+ pretty (_next_id self)
                            +:+ " has been deleted successfully" |}
     /\ router_get_book (id book) deleted.2 = (Raise not_found, deleted.2)
     /\ router_delete_book (id book) deleted.2 = (Raise not_found, deleted.2).
Proof.
  unfold router_create_book, router_get_book, router_delete_book. simpl.
  unfold get_book, delete_book, PyDict.mem. simpl.
  rewrite !get_set_eq. simpl. rewrite !get_del_eq. done.
Qed.

Lemma string_app_cons (c : ascii) (a b : string) :
  String c a +:+ b = String c (a +:+ b).
Proof. reflexivity. Qed.

Lemma string_length_app (a b : string) :
  String.length (a +:+ b) = (String.length a + String.length b)%nat.
Proof.
  induction a as [|c a IH]; [done|].
  rewrite string_app_cons. cbn [String.length]. by rewrite IH.
Qed.

Lemma string_app_cancel_r (a b s : string) : a +:+ s = b +:+ s -> a = b.
Proof.
  revert b. induction a as [|c a IH]; intros [|c' b]; try done.
  - intros Hs. apply (f_equal String.length) in Hs.
    rewrite !string_length_app in Hs. cbn [String.length] in Hs. lia.
  - intros Hs. apply (f_equal String.length) in Hs.
    rewrite !string_length_app in Hs. cbn [String.length] in Hs. lia.
  - rewrite !string_app_cons. intros [= -> Hs]. f_equal. by apply IH.
Qed.

(** Reading through the router never changes the store, and it answers
    404 exactly for the ids the store does not hold; two different ids
    never share a "not found" text. *)
Theorem router_get_book_not_found
    (self : InMemoryBookRepository) (book_id other_id : Z) :
  (router_get_book book_id self).2 = self
  /\ ((exists detail, (router_get_book book_id self).1
                      = Raise (HTTPException 404 detail))
      <-> get_book self book_id = None)
  /\ (get_book self book_id = None -> get_book self other_id = None ->
      (router_get_book book_id self).1 = (router_get_book other_id self).1 ->
      book_id = other_id).
Proof.
  unfold router_get_book. simpl. split_and!.
  - by destruct (get_book self book_id).
  - destruct (get_book self book_id); simpl; split; try done; eauto.
    by intros [? ?].
  - intros -> ->. simpl. intros [= H].
    change (pretty book_id +:+ " not found" = pretty other_id +:+ " not found") in H.
    by apply string_app_cancel_r, (inj pretty) in H.
Qed.

(** ** Further instances on concrete data *)

Lemma page_length_witness :
  exists r, paginate [1; 2; 3; 4; 5; 6; 7; 8; 9; 10] 4 3 = Some r
            /\ Z.of_nat (length (items r)) = 1.
Proof.
  eexists. split; [reflexivity|].
  exact (page_length [1; 2; 3; 4; 5; 6; 7; 8; 9; 10] 4 3 _ eq_refl).
Defined.

Lemma page_item_position_witness :
  exists r, paginate [1; 2; 3; 4; 5; 6; 7; 8; 9; 10] 2 3 = Some r
            /\ items r !! 1%nat = Some 5.
Proof.
  eexists. split; [reflexivity|].
  exact (page_item_position [1; 2; 3; 4; 5; 6; 7; 8; 9; 10] 2 3 _ 1 eq_refl).
Defined.

Lemma has_next_iff_next_page_nonempty_witness :
  exists r, paginate [1; 2; 3; 4; 5; 6; 7; 8; 9; 10] 3 3 = Some r
            /\ (has_next r = true <->
                exists r', paginate [1; 2; 3; 4; 5; 6; 7; 8; 9; 10] (3 + 1) 3 = Some r'
                           /\ items r' <> []).
Proof.
  eexists. split; [reflexivity|].
  exact (has_next_iff_next_page_nonempty [1; 2; 3; 4; 5; 6; 7; 8; 9; 10] 3 3 _ eq_refl).
Defined.

Lemma query_total_is_match_count_witness :
  exists r, get_books Sample.shelf (with_author (Some "Martin") Sample.all_filters) = Some r
            /\ total r = 2.
Proof.
  eexists. split; [reflexivity|].
  exact (query_total_is_match_count Sample.shelf
           (with_author (Some "Martin") Sample.all_filters) _ eq_refl).
Defined.

Lemma query_items_stored_and_selected_witness :
  exists r, get_books Sample.shelf (with_author (Some "Martin") Sample.all_filters) = Some r
            /\ Sample.clean_code ∈ items r
            /\ Sample.clean_code ∈ PyDict.values (_books Sample.shelf)
            /\ selected (with_author (Some "Martin") Sample.all_filters) Sample.clean_code
               = true.
Proof.
  eexists. split; [reflexivity|].
  assert (Sample.clean_code ∈ [Sample.clean_code; Sample.clean_arch]) as Hin by left.
  split; [exact Hin|].
  exact (query_items_stored_and_selected Sample.shelf
           (with_author (Some "Martin") Sample.all_filters) _ Sample.clean_code
           eq_refl Hin).
Defined.

Lemma unsorted_query_keeps_store_order_witness :
  sort_by Sample.all_filters <> Some "year"
  /\ sort_by Sample.all_filters <> Some "author"
  /\ get_books Sample.shelf Sample.all_filters
     = paginate (List.filter (selected Sample.all_filters)
                             (PyDict.values (_books Sample.shelf))) 1 10.
Proof.
  assert (sort_by Sample.all_filters <> Some "year") as Hy by discriminate.
  assert (sort_by Sample.all_filters <> Some "author") as Ha by discriminate.
  split; [exact Hy|]. split; [exact Ha|].
  exact (unsorted_query_keeps_store_order Sample.shelf Sample.all_filters Hy Ha).
Defined.

Lemma page_sorted_by_year_witness :
  let f := with_sort (Some "year") (Some "desc") Sample.all_filters in
  sort_by f = Some "year"
  /\ exists r, get_books Sample.shelf f = Some r
               /\ StronglySorted (year_order f) (items r).
Proof.
  intros f. split; [reflexivity|]. eexists. split; [reflexivity|].
  exact (page_sorted_by_year Sample.shelf f _ eq_refl eq_refl).
Defined.

Lemma page_sorted_by_author_witness :
  let f := with_sort (Some "author") (Some "asc") Sample.all_filters in
  sort_by f = Some "author"
  /\ exists r, get_books Sample.shelf f = Some r
               /\ StronglySorted (author_order f) (items r).
Proof.
  intros f. split; [reflexivity|]. eexists. split; [reflexivity|].
  exact (page_sorted_by_author Sample.shelf f _ eq_refl eq_refl).
Defined.


Lemma get_book_returns_requested_id_witness :
  reachable Sample.shelf
  /\ get_book Sample.shelf 2 = Some Sample.clean_arch
  /\ id Sample.clean_arch = 2.
Proof.
  split; [exact reachable_sample|]. split; [reflexivity|].
  exact (get_book_returns_requested_id Sample.shelf 2 Sample.clean_arch
           reachable_sample eq_refl).
Defined.

Lemma create_then_delete_restores_witness :
  let d := {| bc_title := "Refactoring"; bc_author := "Martin Fowler";
              bc_year := 1999; bc_tags := None |} in
  ids_below_counter Sample.shelf
  /\ delete_book (create_book Sample.shelf d).2 4
     = (true, {| _books := _books Sample.shelf; _next_id := 5 |}).
Proof.
  intros d.
  assert (ids_below_counter Sample.shelf) as Hinv.
  { repeat constructor; simpl; lia. }
  split; [exact Hinv|].
  exact (create_then_delete_restores Sample.shelf d Hinv).
Defined.

Lemma delete_removes_one_record_witness :
  reachable Sample.shelf
  /\ get_book Sample.shelf 2 = Some Sample.clean_arch
  /\ exists before after : list BookResponse,
       PyDict.values (_books Sample.shelf) = before ++ Sample.clean_arch :: after
       /\ PyDict.values (_books (delete_book Sample.shelf 2).2) = before ++ after
       /\ total_books (get_stats (delete_book Sample.shelf 2).2)
          = total_books (get_stats Sample.shelf) - 1.
Proof.
  split; [exact reachable_sample|]. split; [reflexivity|].
  exact (delete_removes_one_record Sample.shelf 2 Sample.clean_arch
           reachable_sample eq_refl).
Defined.

Lemma create_updates_stats_witness :
  let d := {| bc_title := "The Pragmatic Programmer, 2nd"; bc_author := "Andrew Hunt";
              bc_year := 2019; bc_tags := None |} in
  ids_below_counter Sample.shelf
  /\ total_books (get_stats (create_book Sample.shelf d).2) = 4
  /\ unique_authors (get_stats (create_book Sample.shelf d).2) = 3.
Proof.
  intros d.
  assert (ids_below_counter Sample.shelf) as Hinv.
  { repeat constructor; simpl; lia. }
  split; [exact Hinv|].
  destruct (create_updates_stats Sample.shelf d Hinv) as [Ht Hu].
  split.
  - rewrite Ht. reflexivity.
  - rewrite Hu. vm_compute. reflexivity.
Defined.

Lemma startup_always_has_repository_witness :
  let reject_all (entry : string) : option BookCreateFromJSON := None in
  let file : DataLoader.json_file string :=
    DataLoader.Unreadable (OtherException "permission denied") in
  is_Exception (OtherException "permission denied") = true
  /\ lifespan_startup reject_all file
     = Return {| book_repository := Some new_repository |}.
Proof.
  intros reject_all file. split; [reflexivity|].
  destruct (startup_always_has_repository reject_all file eq_refl)
    as (repository & Hstart & _ & Hrepo).
  simpl in Hrepo. by rewrite Hstart, Hrepo.
Defined.

Lemma wrapped_errors_become_http_witness :
  is_Exception (HTTPException 404 "Book with ID 7 not found") = true
  /\ exists status detail,
       handle_repository_errors (A := BookResponse) "get_book"
         (Raise (HTTPException 404 "Book with ID 7 not found"))
       = Raise (HTTPException status detail)
       /\ status = 500.
Proof.
  split; [reflexivity|].
  destruct (wrapped_errors_become_http (A := BookResponse) "get_book"
              (HTTPException 404 "Book with ID 7 not found") eq_refl)
    as (_ & status & detail & Heq & _ & _ & _ & H500).
  exists status, detail. split; [exact Heq|]. by eapply H500.
Defined.
